(** * CartSA: the retail web crawler (WebCrawler.py)

    A shallow embedding of [IntelligentWebCrawler] and the properties of
    its extraction and orchestration code.

    Conventions of the embedding.
    - Text is [string] (ASCII).  Python's [\d] and [str.strip] also know
      the non-ASCII digits and blanks of Unicode; a byte above 127 is
      here neither a digit nor a blank.
    - A price is the exact decimal the cleaned text denotes, a reduced
      rational in [Q].  CPython's [float] rounds that decimal to the
      nearest binary64; rounding is a monotone function of the decimal,
      so equal decimals give equal floats and a decimal that is [>= 0]
      gives a float that is [>= 0].
    - Exceptions are values of [exn]; every one of them is a subclass of
      Python's [Exception], hence caught by [except Exception].
    - The browser is an oracle answering each driver call from the calls
      issued so far; the calls, the log records and the files written are
      threaded through a state-and-error monad [M].
    - The threads of [parallel_crawl] are not run: what each future
      returns or raises, and the order in which the futures complete,
      are given by the pool.
    - [time.sleep] is not modelled, nor are the MongoDB sink
      ([save_to_mongo]) and the finalizer ([__del__]). *)

From Stdlib Require Import String Ascii List ZArith QArith Bool Arith Lia
  Permutation.
From Stdlib Require Import DecimalString.
Import ListNotations.
Close Scope Q_scope.
Open Scope string_scope.

Set Implicit Arguments.

(** ** Python values the crawler handles *)

Inductive exn : Type :=
| NoSuchElementException
| StaleElementReferenceException
| TimeoutException
| WebDriverException
| InvalidArgumentException
| ValueError
| KeyError (key : string)
| AttributeError
| OSError
| RuntimeError.

Inductive Result (A : Type) : Type :=
| Ok (a : A)
| Raise (e : exn).
Arguments Ok {A} a.
Arguments Raise {A} e.

(** A [dict] with string keys, in insertion order. *)
Definition dict (V : Type) : Type := list (string * V).

Fixpoint dict_get {V} (d : dict V) (k : string) : option V :=
  match d with
  | [] => None
  | (k', v) :: d' => if String.eqb k k' then Some v else dict_get d' k
  end.

(** [d[k] = v]: an existing key keeps its place, a new one goes last. *)
Fixpoint dict_set {V} (d : dict V) (k : string) (v : V) : dict V :=
  match d with
  | [] => [(k, v)]
  | (k', v') :: d' =>
      if String.eqb k k' then (k', v) :: d' else (k', v') :: dict_set d' k v
  end.

Definition dict_keys {V} (d : dict V) : list string := map fst d.

(** [d[k]], raising [KeyError]. *)
Definition dict_getitem {V} (d : dict V) (k : string) : Result V :=
  match dict_get d k with
  | Some v => Ok v
  | None => Raise (KeyError k)
  end.

(** ** Strings: [str.strip], [re.sub(r'[^\d.]', '', s)], [float] *)

Definition is_space (c : ascii) : bool :=
  let n := nat_of_ascii c in
  (((9 <=? n) && (n <=? 13)) || ((28 <=? n) && (n <=? 32)))%nat.

Definition is_digit (c : ascii) : bool :=
  let n := nat_of_ascii c in ((48 <=? n) && (n <=? 57))%nat.

Definition is_dot (c : ascii) : bool := Ascii.eqb c ".".

Fixpoint lstrip (s : string) : string :=
  match s with
  | EmptyString => EmptyString
  | String c r => if is_space c then lstrip r else s
  end.

Fixpoint rstrip (s : string) : string :=
  match s with
  | EmptyString => EmptyString
  | String c r =>
      match rstrip r with
      | EmptyString => if is_space c then EmptyString else String c EmptyString
      | r' => String c r'
      end
  end.

Definition strip (s : string) : string := rstrip (lstrip s).

(** The character class [[^\d.]] of the price regex. *)
Definition not_digit_or_dot (c : ascii) : bool :=
  negb (is_digit c || is_dot c).

(** [re.sub(r'[^\d.]', '', s)]: every match is replaced by nothing. *)
Fixpoint re_sub_non_digit_dot (s : string) : string :=
  match s with
  | EmptyString => EmptyString
  | String c r =>
      if not_digit_or_dot c then re_sub_non_digit_dot r
      else String c (re_sub_non_digit_dot r)
  end.

Definition digit_value (c : ascii) : Z := Z.of_nat (nat_of_ascii c) - 48.

(** Reads a run of digits onto [acc]; [None] at any other character. *)
Fixpoint digits_onto (acc : Z) (s : string) : option Z :=
  match s with
  | EmptyString => Some acc
  | String c r =>
      if is_digit c then digits_onto (10 * acc + digit_value c) r else None
  end.

(** Splits at the first decimal point: the text before it, and the text
    after it when there is one. *)
Fixpoint split_dot (s : string) : string * option string :=
  match s with
  | EmptyString => (EmptyString, None)
  | String c r =>
      if is_dot c then (EmptyString, Some r)
      else let (a, b) := split_dot r in (String c a, b)
  end.

Fixpoint pow10 (k : nat) : positive :=
  match k with
  | O => 1%positive
  | S k' => (10 * pow10 k')%positive
  end.

(** [float(s)] on the texts the regex can leave, those made of digits
    and points.  Python accepts such a text when it has at least one
    digit and at most one point ("12", "12.", ".5", "12.5") and raises
    [ValueError] on the others ("", ".", "1.2.3"). *)
Definition float (s : string) : Result Q :=
  let (ip, rest) := split_dot s in
  let fp := match rest with Some f => f | None => EmptyString end in
  match digits_onto 0 ip with
  | None => Raise ValueError
  | Some i =>
      match digits_onto i fp with
      | None => Raise ValueError
      | Some m =>
          if Nat.eqb (String.length ip + String.length fp) 0
          then Raise ValueError
          else Ok (Qred (Qmake m (pow10 (String.length fp))))
      end
  end.

(** [float(re.sub(r'[^\d.]', '', price_text))] *)
Definition parse_price (price_text : string) : Result Q :=
  float (re_sub_non_digit_dot price_text).

(** ** Data model *)

Record Product : Type := {
  name : string;
  price : Q;
  retailer : string;
  category : string;
  original_price : option Q;
  discount_percentage : option Q;
  product_url : option string;
  image_url : option string;
  availability : string
}.

(** [Product(name=name, price=price, retailer=retailer)]: the call of
    [_extract_products]; the other fields take the dataclass defaults. *)
Definition new_Product (name : string) (price : Q) (retailer : string)
  : Product :=
  {| name := name; price := price; retailer := retailer;
     category := "Uncategorized";
     original_price := None; discount_percentage := None;
     product_url := None; image_url := None;
     availability := "Unknown" |}.

(** The values of a [crawl_strategy] dictionary. *)
Inductive PyVal : Type :=
| VStr (s : string)
| VBool (b : bool).

(** Truth value of [d.get(k)], [None] when the key is absent. *)
Definition truthy (v : option PyVal) : bool :=
  match v with
  | None => false
  | Some (VBool b) => b
  | Some (VStr s) => negb (String.eqb s "")
  end.

Record RetailerConfig : Type := {
  homepage : string;
  product_pages : list string;
  crawl_strategy : dict PyVal;
  selectors : dict string
}.

(** [RetailCrawlerConfig.RETAILERS] *)
Definition RETAILERS : dict RetailerConfig :=
  [ ("pick_n_pay",
     {| homepage := "https://www.pnp.co.za";
        product_pages :=
          [ "https://www.pnp.co.za/pnpstorefront/pnp/en/All-Products";
            "https://www.pnp.co.za/pnpstorefront/pnp/en/Groceries";
            "https://www.pnp.co.za/pnpstorefront/pnp/en/Personal-Care" ];
        crawl_strategy :=
          [ ("method", VStr "selenium");
            ("wait_element", VStr ".product-grid");
            ("scroll_pagination", VBool true) ];
        selectors :=
          [ ("product_container", ".product-item");
            ("name", ".product-name");
            ("price", ".price");
            ("category", ".category-breadcrumb") ] |});
    ("checkers",
     {| homepage := "https://www.checkers.co.za";
        product_pages :=
          [ "https://www.checkers.co.za/all-products";
            "https://www.checkers.co.za/groceries";
            "https://www.checkers.co.za/personal-care" ];
        crawl_strategy :=
          [ ("method", VStr "selenium");
            ("wait_element", VStr ".product-grid");
            ("scroll_pagination", VBool true) ];
        selectors :=
          [ ("product_container", ".product-card");
            ("name", ".product-title");
            ("price", ".current-price");
            ("category", ".breadcrumb-item") ] |});
    ("woolworths",
     {| homepage := "https://www.woolworths.co.za";
        product_pages :=
          [ "https://www.woolworths.co.za/cat/Food/_/N-rhf7";
            "https://www.woolworths.co.za/cat/Personal-Care/_/N-1z141z6" ];
        crawl_strategy :=
          [ ("method", VStr "selenium");
            ("wait_element", VStr ".product-list");
            ("infinite_scroll", VBool true) ];
        selectors :=
          [ ("product_container", ".product-item");
            ("name", ".product-name");
            ("price", ".price");
            ("category", ".breadcrumb-item") ] |}) ].

(** ** The browser and the world *)

(** A Selenium [WebElement]: its [.text] and its
    [find_element(By.CSS_SELECTOR, selector)], each of which may raise. *)
#[warnings="-register-all"]
Inductive WebElement : Type :=
  MkElement {
    text : Result string;
    find_element : string -> Result WebElement
  }.

(** The calls the crawler makes on [self.driver]. *)
Inductive call : Type :=
| Get (url : string)
| WaitPresence (selector : string)
| ExecuteScript (script : string)
| FindElements (selector : string).

(** What the outside answers.  A driver call is answered from the calls
    made before it; [None] stands for a call that returns normally.
    - [on_chrome headless]: [webdriver.Chrome(options=chrome_options)];
    - [on_get]: [driver.get(url)];
    - [on_wait]: [WebDriverWait(driver, 10).until(
        EC.presence_of_element_located((By.CSS_SELECTOR, selector)))];
    - [on_script]: [driver.execute_script(script)];
    - [on_find_elements]: [driver.find_elements(By.CSS_SELECTOR, selector)];
    - [on_to_csv]: [df.to_csv(filename, index=False)]. *)
Record Browser : Type := {
  on_chrome : bool -> option exn;
  on_get : list call -> string -> option exn;
  on_wait : list call -> string -> option exn;
  on_script : list call -> string -> option exn;
  on_find_elements : list call -> string -> Result (list WebElement);
  on_to_csv : string -> option exn
}.

Inductive level : Type := INFO | WARNING | ERROR.

(** The messages of the [logging] calls, with the values they format. *)
Inductive message : Type :=
| SetupFailed (e : exn)
| DriverNotInitialized
| NoConfiguration (retailer_key : string)
| Crawled (retailer_key : string) (n : nat) (product_page : string)
| PageError (retailer_key : string) (product_page : string) (e : exn)
| ElementError (e : exn)
| ExtractionError (retailer : string) (e : exn)
| RetailerError (retailer : string) (e : exn)
| SavedCsv (n : nat) (retailer : string) (filename : string).

(** What a run leaves behind, oldest first: the driver calls, the log
    records and the CSV files written. *)
Record World : Type := {
  calls : list call;
  logs : list (level * message);
  files : list (string * list Product)
}.

Definition new_World : World := {| calls := []; logs := []; files := [] |}.

(** ** The monad of the crawler: world passing with exceptions *)

Definition M (A : Type) : Type := World -> Result A * World.

Definition ret {A} (a : A) : M A := fun w => (Ok a, w).

Definition bind {A B} (m : M A) (k : A -> M B) : M B :=
  fun w =>
    match m w with
    | (Ok a, w') => k a w'
    | (Raise e, w') => (Raise e, w')
    end.

(** Lifts a computation that only returns or raises. *)
Definition lift {A} (r : Result A) : M A := fun w => (r, w).

(** [try: m  except Exception as e: handler e].  What [m] did to the
    world before raising stays done. *)
Definition try_except {A} (m : M A) (handler : exn -> M A) : M A :=
  fun w =>
    match m w with
    | (Ok a, w') => (Ok a, w')
    | (Raise e, w') => handler e w'
    end.

Declare Scope crawl_scope.
Delimit Scope crawl_scope with crawl.
Notation "x <- m ;; k" := (bind m (fun x => k))
  (at level 61, m at next level, right associativity) : crawl_scope.
Notation "m ;; k" := (bind m (fun _ => k))
  (at level 61, right associativity) : crawl_scope.
Open Scope crawl_scope.

(** The same sequencing for code that touches no world. *)
Definition and_then {A B} (r : Result A) (k : A -> Result B) : Result B :=
  match r with
  | Ok a => k a
  | Raise e => Raise e
  end.

Definition logging (l : level) (m : message) : M unit :=
  fun w =>
    (Ok tt, {| calls := calls w; logs := (logs w ++ [(l, m)])%list;
               files := files w |}).

(** A driver call: recorded, then answered from the earlier calls. *)
Definition driver_call {A} (c : call) (answer : list call -> Result A)
  : M A :=
  fun w =>
    (answer (calls w),
     {| calls := (calls w ++ [c])%list; logs := logs w; files := files w |}).

Definition returns_or_raises (o : option exn) : Result unit :=
  match o with
  | None => Ok tt
  | Some e => Raise e
  end.

(** ** class IntelligentWebCrawler *)

(** The driver object: the Chrome session and the option it was started
    with. *)
Inductive WebDriver : Type := Chrome (headless : bool).

Record IntelligentWebCrawler : Type := {
  driver : option WebDriver;
  products : list Product;
  successful_retailers : list string
}.

(** The script of [_scroll_page]. *)
Definition scroll_script : string :=
  "window.scrollTo(0, document.body.scrollHeight);".

(** [name = container.find_element(By.CSS_SELECTOR,
              config['selectors']['name']).text.strip()] *)
Definition read_name (config : RetailerConfig) (container : WebElement)
  : Result string :=
  and_then (dict_getitem (selectors config) "name") (fun selector =>
  and_then (find_element container selector) (fun element =>
  and_then (text element) (fun t =>
  Ok (strip t)))).

(** [price_element = container.find_element(By.CSS_SELECTOR,
                       config['selectors']['price'])
     price_text = price_element.text.strip()
     price = float(re.sub(r'[^\d.]', '', price_text))] *)
Definition read_price (config : RetailerConfig) (container : WebElement)
  : Result Q :=
  and_then (dict_getitem (selectors config) "price") (fun selector =>
  and_then (find_element container selector) (fun price_element =>
  and_then (text price_element) (fun t =>
  let price_text := strip t in
  parse_price price_text))).

(** The body of the inner [try] of [_extract_products], up to the
    construction of the [Product]. *)
Definition extract_element (retailer : string) (config : RetailerConfig)
    (container : WebElement) : Result Product :=
  and_then (read_name config container) (fun name =>
  and_then (read_price config container) (fun price =>
  Ok (new_Product name price retailer))).

Section Crawler.

Variable B : Browser.

(** [_setup_selenium]: the driver, or [None] when Chrome does not start. *)
Definition _setup_selenium (headless : bool) : M (option WebDriver) :=
  match on_chrome B headless with
  | None => ret (Some (Chrome headless))
  | Some e => logging ERROR (SetupFailed e) ;; ret None
  end.

Definition __init__ (headless : bool) : M IntelligentWebCrawler :=
  d <- _setup_selenium headless ;;
  ret {| driver := d; products := []; successful_retailers := [] |}.

(** [for _ in range(n): driver.execute_script(...); time.sleep(2)] *)
Fixpoint scroll_loop (n : nat) : M unit :=
  match n with
  | O => ret tt
  | S n' =>
      driver_call (ExecuteScript scroll_script)
        (fun h => returns_or_raises (on_script B h scroll_script)) ;;
      scroll_loop n'
  end.

(** [_scroll_page(driver, max_scrolls)]; [range] of a negative number is
    empty. *)
Definition _scroll_page (d : WebDriver) (max_scrolls : Z) : M unit :=
  scroll_loop (Z.to_nat max_scrolls).

(** [for container in product_containers: try: ... except Exception],
    with the list [products] built so far. *)
Fixpoint extract_loop (retailer : string) (config : RetailerConfig)
    (product_containers : list WebElement) (products : list Product)
  : M (list Product) :=
  match product_containers with
  | [] => ret products
  | container :: rest =>
      products' <-
        try_except
          (product <- lift (extract_element retailer config container) ;;
           ret (products ++ [product])%list)
          (fun inner_e =>
             logging WARNING (ElementError inner_e) ;; ret products) ;;
      extract_loop retailer config rest products'
  end.

(** [_extract_products(retailer, config)].  The outer handler returns
    [products] as it stands; the loop raises nothing (lemma
    [extract_loop_returns]), so an exception reaches that handler only
    before the first element, when [products] is still empty. *)
Definition _extract_products (self : IntelligentWebCrawler)
    (retailer : string) (config : RetailerConfig) : M (list Product) :=
  try_except
    (_ <- lift (match driver self with
                | Some d => Ok d
                | None => Raise AttributeError
                end) ;;
     selector <- lift (dict_getitem (selectors config) "product_container") ;;
     product_containers <-
       driver_call (FindElements selector)
         (fun h => on_find_elements B h selector) ;;
     extract_loop retailer config product_containers [])
    (fun e => logging ERROR (ExtractionError retailer e) ;; ret []).

(** [retailer_config['crawl_strategy'].get('wait_element', 'body')] as
    a CSS selector; a value that is no string is refused by the locator. *)
Definition wait_selector (retailer_config : RetailerConfig) : Result string :=
  match dict_get (crawl_strategy retailer_config) "wait_element" with
  | None => Ok "body"
  | Some (VStr s) => Ok s
  | Some (VBool _) => Raise InvalidArgumentException
  end.

(** The body of the [try] of [crawl_retailer] for one page, up to the
    products of that page. *)
Definition visit_page (self : IntelligentWebCrawler) (d : WebDriver)
    (retailer_key : string) (retailer_config : RetailerConfig)
    (product_page : string) : M (list Product) :=
  driver_call (Get product_page)
    (fun h => returns_or_raises (on_get B h product_page)) ;;
  wait_element <- lift (wait_selector retailer_config) ;;
  driver_call (WaitPresence wait_element)
    (fun h => returns_or_raises (on_wait B h wait_element)) ;;
  (if truthy (dict_get (crawl_strategy retailer_config) "scroll_pagination")
   then _scroll_page d 5
   else ret tt) ;;
  _extract_products self retailer_key retailer_config.

(** [for product_page in retailer_config['product_pages']: try: ...
    except Exception], with [retailer_products] as built so far. *)
Fixpoint crawl_pages (self : IntelligentWebCrawler) (d : WebDriver)
    (retailer_key : string) (retailer_config : RetailerConfig)
    (pages : list string) (retailer_products : list Product)
  : M (list Product) :=
  match pages with
  | [] => ret retailer_products
  | product_page :: rest =>
      retailer_products' <-
        try_except
          (found <- visit_page self d retailer_key retailer_config
                      product_page ;;
           logging INFO (Crawled retailer_key (length found) product_page) ;;
           ret (retailer_products ++ found)%list)
          (fun e =>
             logging ERROR (PageError retailer_key product_page e) ;;
             ret retailer_products) ;;
      crawl_pages self d retailer_key retailer_config rest retailer_products'
  end.

Definition crawl_retailer (self : IntelligentWebCrawler)
    (retailer_key : string) : M (list Product) :=
  match driver self with
  | None => logging ERROR DriverNotInitialized ;; ret []
  | Some d =>
      match dict_get RETAILERS retailer_key with
      | None => logging ERROR (NoConfiguration retailer_key) ;; ret []
      | Some retailer_config =>
          crawl_pages self d retailer_key retailer_config
            (product_pages retailer_config) []
      end
  end.

(** [_save_to_csv]: one file per entry, in the order of the dictionary. *)
Fixpoint _save_to_csv (products_dict : dict (list Product)) : M unit :=
  match products_dict with
  | [] => ret tt
  | (retailer, found) :: rest =>
      let filename := retailer ++ "_products.csv" in
      (fun w =>
         match on_to_csv B filename with
         | None =>
             (Ok tt, {| calls := calls w; logs := logs w;
                        files := (files w ++ [(filename, found)])%list |})
         | Some e => (Raise e, w)
         end) ;;
      logging INFO (SavedCsv (length found) retailer filename) ;;
      _save_to_csv rest
  end.

(** The worker pool.  [as_completed pool retailers] lists the futures of
    [executor.submit(self.crawl_retailer, retailer) for retailer in
    retailers] in the order they complete, each with its retailer and
    with what [future.result()] does: return the products or raise. *)
Record ThreadPoolExecutor : Type := {
  as_completed : list string -> list (string * Result (list Product))
}.

(** [for future in as_completed(future_to_retailer): try: ...
    except Exception] *)
Fixpoint collect (completed : list (string * Result (list Product)))
    (all_products : dict (list Product)) (self : IntelligentWebCrawler)
  : M (dict (list Product) * IntelligentWebCrawler) :=
  match completed with
  | [] => ret (all_products, self)
  | (retailer, result) :: rest =>
      match result with
      | Ok found =>
          collect rest (dict_set all_products retailer found)
            (match found with
             | [] => self
             | _ :: _ =>
                 {| driver := driver self; products := products self;
                    successful_retailers :=
                      (successful_retailers self ++ [retailer])%list |}
             end)
      | Raise e =>
          logging ERROR (RetailerError retailer e) ;;
          collect rest all_products self
      end
  end.

(** [parallel_crawl(retailers)]: the result dictionary and the crawler
    as the call leaves it. *)
Definition parallel_crawl (pool : ThreadPoolExecutor)
    (self : IntelligentWebCrawler) (retailers : option (list string))
  : M (dict (list Product) * IntelligentWebCrawler) :=
  let retailers :=
    match retailers with
    | None | Some [] => dict_keys RETAILERS
    | Some rs => rs
    end in
  r <- collect (as_completed pool retailers) [] self ;;
  _save_to_csv (fst r) ;;
  ret r.

End Crawler.

(** ** Observations on a run *)

Definition logged (records : list (level * message)) (w : World) : World :=
  {| calls := calls w; logs := (logs w ++ records)%list; files := files w |}.

Definition called (cs : list call) (w : World) : World :=
  {| calls := (calls w ++ cs)%list; logs := logs w; files := files w |}.

(** The pages navigated to, in order. *)
Definition gets (h : list call) : list string :=
  flat_map (fun c => match c with Get url => [url] | _ => [] end) h.

(** The number of scripts run. *)
Definition count_scrolls (h : list call) : nat :=
  length (filter (fun c => match c with ExecuteScript _ => true | _ => false end)
            h).

(** The ordered sequence of Products built from the elements that
    succeeded. *)
Definition built_from (retailer : string) (config : RetailerConfig)
    (containers : list WebElement) : list Product :=
  flat_map (fun c => match extract_element retailer config c with
                     | Ok p => [p]
                     | Raise _ => []
                     end) containers.

(** One warning for each element that failed, in order. *)
Definition skipped_warnings (retailer : string) (config : RetailerConfig)
    (containers : list WebElement) : list (level * message) :=
  flat_map (fun c => match extract_element retailer config c with
                     | Ok _ => []
                     | Raise e => [(WARNING, ElementError e)]
                     end) containers.

(** The record [crawl_retailer] logs for a page, by how the page ended. *)
Definition page_record (retailer_key product_page : string)
    (outcome : Result (list Product)) : level * message :=
  match outcome with
  | Ok found => (INFO, Crawled retailer_key (length found) product_page)
  | Raise e => (ERROR, PageError retailer_key product_page e)
  end.

(** How each page of a run ended, in page order: with its products, or
    with the exception that stopped it. *)
Fixpoint page_outcomes (B : Browser) (self : IntelligentWebCrawler)
    (d : WebDriver) (retailer_key : string) (retailer_config : RetailerConfig)
    (pages : list string) (w : World) : list (Result (list Product)) :=
  match pages with
  | [] => []
  | product_page :: rest =>
      let (outcome, w1) :=
        visit_page B self d retailer_key retailer_config product_page w in
      outcome ::
      page_outcomes B self d retailer_key retailer_config rest
        (logged [page_record retailer_key product_page outcome] w1)
  end.

Definition products_of (outcome : Result (list Product)) : list Product :=
  match outcome with
  | Ok found => found
  | Raise _ => []
  end.

Definition errored (outcome : Result (list Product)) : bool :=
  match outcome with
  | Ok _ => false
  | Raise _ => true
  end.

(** The status rule of the specification's CrawlResult, which the code
    does not compute: failed when every page errored, partial when a
    page errored and a product was extracted, success otherwise. *)
Inductive Status : Type := success | partial | failed.

Definition spec_status (outcomes : list (Result (list Product))) : Status :=
  if negb (Nat.eqb (length outcomes) 0) && forallb errored outcomes
  then failed
  else if existsb errored outcomes
          && negb (Nat.eqb (length (flat_map products_of outcomes)) 0)
       then partial
       else success.

(** ** Worked sites *)

(** An element with a text and no descendants. *)
Definition leaf (t : string) : WebElement :=
  MkElement (Ok t) (fun _ => Raise NoSuchElementException).

(** A product container whose descendants are given by selector. *)
Definition listing (fields : dict string) : WebElement :=
  MkElement (Ok "")
    (fun selector =>
       match dict_get fields selector with
       | Some t => Ok (leaf t)
       | None => Raise NoSuchElementException
       end).

(** The page the driver is on after the calls [h]. *)
Definition current_url (h : list call) : string :=
  fold_left (fun url c => match c with Get u => u | _ => url end) h "".

(** The scripts run since the last navigation. *)
Definition scrolls_on_page (h : list call) : nat :=
  fold_left (fun n c => match c with
                        | Get _ => O
                        | ExecuteScript _ => S n
                        | _ => n
                        end) h O.

(** A browser over a site: [content url k] are the containers of the
    page [url] after [k] scrolls, [times_out url] tells whether the wait
    on that page expires, [starts] whether Chrome starts. *)
Definition site_browser (starts : bool) (times_out : string -> bool)
    (content : string -> nat -> list WebElement) : Browser :=
  {| on_chrome := fun _ => if starts then None else Some WebDriverException;
     on_get := fun _ _ => None;
     on_wait := fun h _ =>
       if times_out (current_url h) then Some TimeoutException else None;
     on_script := fun _ _ => None;
     on_find_elements := fun h _ =>
       Ok (content (current_url h) (scrolls_on_page h));
     on_to_csv := fun _ => None |}.

Definition milk : WebElement :=
  listing [(".product-name", " Full Cream Milk 2L ");
           (".price", "R 34.99");
           (".category-breadcrumb", "Dairy")].

Definition soap : WebElement :=
  listing [(".product-name", "Bath Soap"); (".price", "$1,299.99")].

Definition sold_out : WebElement :=
  listing [(".product-name", "Rusks"); (".price", "Out of stock")].

Definition nameless : WebElement :=
  listing [(".price", "R 10.00")].

Definition blank_name : WebElement :=
  listing [(".product-name", "   "); (".price", "R 5.00")].

Definition pnp_all : string :=
  "https://www.pnp.co.za/pnpstorefront/pnp/en/All-Products".
Definition pnp_groceries : string :=
  "https://www.pnp.co.za/pnpstorefront/pnp/en/Groceries".
Definition pnp_care : string :=
  "https://www.pnp.co.za/pnpstorefront/pnp/en/Personal-Care".

(** Milk on the first page of Pick n Pay, nothing on the second, soap
    on the third. *)
Definition pnp_content (url : string) (k : nat) : list WebElement :=
  if String.eqb url pnp_all then [milk]
  else if String.eqb url pnp_care then [soap]
  else [].

(** The same site, healthy and with a second page that never loads. *)
Definition pnp_site : Browser :=
  site_browser true (fun _ => false) pnp_content.

Definition pnp_site_timeout : Browser :=
  site_browser true (fun url => String.eqb url pnp_groceries) pnp_content.

(** A page that shows one more product after every scroll. *)
Definition growing_site : Browser :=
  site_browser true (fun _ => false) (fun _ k => repeat milk (S k)).

(** A machine without Chrome. *)
Definition no_chrome : Browser :=
  site_browser false (fun _ => false) pnp_content.

(** A page holding the given containers, for any retailer. *)
Definition one_page (containers : list WebElement) : Browser :=
  site_browser true (fun _ => false) (fun _ _ => containers).

Definition a_crawler : IntelligentWebCrawler :=
  {| driver := Some (Chrome true); products := [];
     successful_retailers := [] |}.

Definition no_driver : IntelligentWebCrawler :=
  {| driver := None; products := []; successful_retailers := [] |}.

(** The registered configuration of a retailer. *)
Definition config_of (retailer_key : string) : RetailerConfig :=
  match dict_get RETAILERS retailer_key with
  | Some c => c
  | None => {| homepage := ""; product_pages := []; crawl_strategy := [];
               selectors := [] |}
  end.

Definition pnp_config : RetailerConfig := config_of "pick_n_pay".

(** A pool whose units run [crawl_retailer] one after the other, in
    submission order, each from the given world. *)
Definition inline_pool (B : Browser) (self : IntelligentWebCrawler)
    (w : World) : ThreadPoolExecutor :=
  {| as_completed := fun retailers =>
       map (fun r => (r, fst (crawl_retailer B self r w))) retailers |}.

(** A pool in which the unit of [broken] raises [e], the others return
    one product each, and the futures complete in submission order. *)
Definition pool_with_crash (broken : string) (e : exn) : ThreadPoolExecutor :=
  {| as_completed := fun retailers =>
       map (fun r => (r, if String.eqb r broken then Raise e
                         else Ok [new_Product "Bath Soap" 34.99%Q r]))
         retailers |}.

(** What the result dictionary is to hold for a retailer: the products of
    the last of its futures that returned, if one did. *)
Fixpoint last_returned (completed : list (string * Result (list Product)))
    (r : string) : option (list Product) :=
  match completed with
  | [] => None
  | (r', outcome) :: rest =>
      match last_returned rest r with
      | Some found => Some found
      | None =>
          match outcome with
          | Ok found => if String.eqb r r' then Some found else None
          | Raise _ => None
          end
      end
  end.

(** The retailers appended to [successful_retailers]: one for each
    future that returned a list with a product in it. *)
Definition successes (completed : list (string * Result (list Product)))
  : list string :=
  flat_map (fun c => match snd c with
                     | Ok (_ :: _) => [fst c]
                     | _ => []
                     end) completed.

(** The error records of the futures that raised, in completion order. *)
Definition crash_records (completed : list (string * Result (list Product)))
  : list (level * message) :=
  flat_map (fun c => match snd c with
                     | Ok _ => []
                     | Raise e => [(ERROR, RetailerError (fst c) e)]
                     end) completed.

(** The files and the records of [_save_to_csv] for a dictionary. *)
Definition csv_files (d : dict (list Product))
  : list (string * list Product) :=
  map (fun entry => (fst entry ++ "_products.csv", snd entry)) d.

Definition csv_records (d : dict (list Product)) : list (level * message) :=
  map (fun entry =>
         (INFO, SavedCsv (length (snd entry)) (fst entry)
                  (fst entry ++ "_products.csv"))) d.

(** The retailers [parallel_crawl] submits for its argument. *)
Definition submitted (retailers : option (list string)) : list string :=
  match retailers with
  | None | Some [] => dict_keys RETAILERS
  | Some rs => rs
  end.

(** ** The entry point *)

(** [str.upper] on the ASCII letters. *)
Definition upper_char (c : ascii) : ascii :=
  let n := nat_of_ascii c in
  if ((97 <=? n) && (n <=? 122))%nat then ascii_of_nat (n - 32) else c.

Fixpoint upper (s : string) : string :=
  match s with
  | EmptyString => EmptyString
  | String c r => String (upper_char c) (upper r)
  end.

(** [f"{retailer.upper()}: {len(retailer_products)} products found"] *)
Definition summary_line (retailer : string)
    (retailer_products : list Product) : string :=
  upper retailer ++ ": "
  ++ NilZero.string_of_uint (Nat.to_uint (length retailer_products))
  ++ " products found".

(** [main()], returning the lines it prints.  The units of the pool run
    methods of the crawler just built, so the pool is given by the
    crawler. *)
Definition main (B : Browser)
    (executor : IntelligentWebCrawler -> ThreadPoolExecutor)
  : M (list string) :=
  crawler <- __init__ B true ;;
  r <- parallel_crawl B (executor crawler) crawler None ;;
  ret (map (fun entry => summary_line (fst entry) (snd entry)) (fst r)).

(** ** More observations *)

(** How many characters of a text satisfy [f]. *)
Fixpoint count_in (f : ascii -> bool) (s : string) : nat :=
  match s with
  | EmptyString => O
  | String c r => (if f c then 1 else 0) + count_in f r
  end.

(** All characters of a text satisfy [f]. *)
Fixpoint only (f : ascii -> bool) (s : string) : Prop :=
  match s with
  | EmptyString => True
  | String c r => f c = true /\ only f r
  end.

Definition digit_or_dot (c : ascii) : bool := is_digit c || is_dot c.

(** The records [crawl_retailer] writes itself, one for a page. *)
Definition is_page_record (record : level * message) : bool :=
  match snd record with
  | Crawled _ _ _ | PageError _ _ _ => true
  | _ => false
  end.

(** The futures that returned a list with a product in it. *)
Definition returned_products (c : string * Result (list Product)) : bool :=
  match snd c with
  | Ok (_ :: _) => true
  | _ => false
  end.

(** ** More worked sites *)

(** A site on which the script raises once [k] scrolls have been run on
    the page. *)
Definition flaky_scroll (k : nat) : Browser :=
  {| on_chrome := fun _ => None;
     on_get := fun _ _ => None;
     on_wait := fun _ _ => None;
     on_script := fun h _ =>
       if Nat.eqb (scrolls_on_page h) k then Some WebDriverException
       else None;
     on_find_elements := fun h _ => Ok (pnp_content (current_url h) O);
     on_to_csv := fun _ => None |}.

(** The Pick n Pay site on a machine that cannot write files. *)
Definition read_only_disk : Browser :=
  {| on_chrome := fun _ => None;
     on_get := fun _ _ => None;
     on_wait := fun _ _ => None;
     on_script := fun _ _ => None;
     on_find_elements := fun h _ => Ok (pnp_content (current_url h) O);
     on_to_csv := fun _ => Some OSError |}.

(** A configuration whose selectors lack the price. *)
Definition config_without_price : RetailerConfig :=
  {| homepage := "https://example.org";
     product_pages := ["https://example.org/all"];
     crawl_strategy := [("method", VStr "selenium")];
     selectors := [("product_container", ".item"); ("name", ".title")] |}.

(** A pool whose units all return the same products, completing in the
    reverse of the submission order. *)
Definition reversing_pool (found : list Product) : ThreadPoolExecutor :=
  {| as_completed := fun retailers =>
       rev (map (fun r => (r, Ok found)) retailers) |}.

(** The Pick n Pay site on a machine where the file of Checkers, and
    only that one, cannot be written. *)
Definition picky_disk : Browser :=
  {| on_chrome := fun _ => None;
     on_get := fun _ _ => None;
     on_wait := fun _ _ => None;
     on_script := fun _ _ => None;
     on_find_elements := fun h _ => Ok (pnp_content (current_url h) O);
     on_to_csv := fun filename =>
       if String.eqb filename "checkers_products.csv" then Some OSError
       else None |}.

(** * Properties *)

(** ** Worlds *)

Lemma world_eta (w : World) :
  {| calls := calls w; logs := logs w; files := files w |} = w.
Proof. destruct w; reflexivity. Qed.

Lemma logged_nil (w : World) : logged [] w = w.
Proof. unfold logged. rewrite app_nil_r. apply world_eta. Qed.

Lemma called_nil (w : World) : called [] w = w.
Proof. unfold called. rewrite app_nil_r. apply world_eta. Qed.

Lemma logged_logged (l1 l2 : list (level * message)) (w : World) :
  logged l2 (logged l1 w) = logged (l1 ++ l2) w.
Proof. unfold logged; simpl. now rewrite app_assoc. Qed.

Lemma called_called (c1 c2 : list call) (w : World) :
  called c2 (called c1 w) = called (c1 ++ c2) w.
Proof. unfold called; simpl. now rewrite app_assoc. Qed.

Lemma called_logged (c : list call) (l : list (level * message)) (w : World) :
  called c (logged l w) = logged l (called c w).
Proof. reflexivity. Qed.

Lemma logging_run (l : level) (m : message) (w : World) :
  logging l m w = (Ok tt, logged [(l, m)] w).
Proof. reflexivity. Qed.

Lemma driver_call_run {A} (c : call) (answer : list call -> Result A)
    (w : World) :
  driver_call c answer w = (answer (calls w), called [c] w).
Proof. reflexivity. Qed.

Lemma gets_app (h1 h2 : list call) : gets (h1 ++ h2) = (gets h1 ++ gets h2)%list.
Proof. unfold gets. apply flat_map_app. Qed.

Lemma count_scrolls_app (h1 h2 : list call) :
  count_scrolls (h1 ++ h2) = count_scrolls h1 + count_scrolls h2.
Proof. unfold count_scrolls. now rewrite filter_app, length_app. Qed.

Lemma count_scrolls_repeat (n : nat) :
  count_scrolls (repeat (ExecuteScript scroll_script) n) = n.
Proof.
  induction n as [|n IH]; [reflexivity|].
  unfold count_scrolls in *; simpl. now rewrite IH.
Qed.

Lemma gets_repeat_script (n : nat) :
  gets (repeat (ExecuteScript scroll_script) n) = [].
Proof. induction n as [|n IH]; [reflexivity|exact IH]. Qed.

(** ** Price text *)

Lemma re_sub_keeps (s : string) :
  list_ascii_of_string (re_sub_non_digit_dot s)
  = filter (fun c => is_digit c || is_dot c) (list_ascii_of_string s).
Proof.
  induction s as [|c r IH]; [reflexivity|].
  simpl. unfold not_digit_or_dot.
  destruct (is_digit c || is_dot c); simpl; now rewrite IH.
Qed.

Example strip_example : strip "  R 12.50 " = "R 12.50".
Proof. reflexivity. Qed.

Example clean_example : re_sub_non_digit_dot "$1,299.99" = "1299.99".
Proof. reflexivity. Qed.

Example float_examples :
  float "12" = Ok 12%Q /\ float "12." = Ok 12%Q /\ float ".5" = Ok (1 # 2)%Q /\
  float "" = Raise ValueError /\ float "." = Raise ValueError /\
  float "1.2.3" = Raise ValueError.
Proof. repeat split; reflexivity. Qed.

Lemma digit_value_nonneg (c : ascii) : is_digit c = true -> (0 <= digit_value c)%Z.
Proof.
  unfold is_digit, digit_value. intros H.
  apply andb_true_iff in H as [H _]. apply Nat.leb_le in H. lia.
Qed.

Lemma digits_onto_nonneg (s : string) :
  forall acc m, (0 <= acc)%Z -> digits_onto acc s = Some m -> (0 <= m)%Z.
Proof.
  induction s as [|c r IH]; cbn [digits_onto]; intros acc m Hacc H.
  - now inversion H; subst.
  - destruct (is_digit c) eqn:Hd; [|discriminate].
    apply IH in H; [exact H|].
    pose proof (digit_value_nonneg c Hd). lia.
Qed.

Lemma Qred_nonneg (m : Z) (p : positive) :
  (0 <= m)%Z -> (0 <= Qred (m # p))%Q.
Proof.
  intros H. apply (proj2 (Qred_le 0 (m # p))).
  unfold Qle; cbn [Qnum Qden]. lia.
Qed.

(** A price that parses is not negative: the cleaned text has no sign. *)
Lemma float_nonneg (s : string) (q : Q) : float s = Ok q -> (0 <= q)%Q.
Proof.
  unfold float. destruct (split_dot s) as [ip rest].
  destruct (digits_onto 0 ip) as [i|] eqn:Hi; [|discriminate].
  destruct (digits_onto i _) as [m|] eqn:Hm; [|discriminate].
  destruct (Nat.eqb _ 0); [discriminate|].
  intros H; injection H as <-.
  assert (Hi0 : (0 <= i)%Z) by (eapply digits_onto_nonneg; [|exact Hi]; lia).
  assert (Hm0 : (0 <= m)%Z) by (eapply digits_onto_nonneg; [|exact Hm]; exact Hi0).
  now apply Qred_nonneg.
Qed.

Lemma parse_price_nonneg (t : string) (q : Q) :
  parse_price t = Ok q -> (0 <= q)%Q.
Proof. apply float_nonneg. Qed.

(** ** One element *)

Lemma extract_element_ok (retailer : string) (config : RetailerConfig)
    (c : WebElement) (p : Product) :
  extract_element retailer config c = Ok p ->
  read_name config c = Ok (name p) /\ read_price config c = Ok (price p) /\
  p = new_Product (name p) (price p) retailer.
Proof.
  unfold extract_element.
  destruct (read_name config c) as [n|e]; simpl; [|discriminate].
  destruct (read_price config c) as [q|e]; simpl; [|discriminate].
  intros H; inversion H; subst; simpl. repeat split.
Qed.

Lemma extract_element_no_name (retailer : string) (config : RetailerConfig)
    (c : WebElement) (e : exn) :
  read_name config c = Raise e -> extract_element retailer config c = Raise e.
Proof. unfold extract_element. now intros ->. Qed.

Lemma extract_element_no_price (retailer : string) (config : RetailerConfig)
    (c : WebElement) (e : exn) :
  read_price config c = Raise e ->
  exists e', extract_element retailer config c = Raise e'.
Proof.
  unfold extract_element. intros ->.
  destruct (read_name config c) as [n|e']; simpl; eauto.
Qed.

Lemma read_price_parsed (config : RetailerConfig) (c : WebElement) (q : Q) :
  read_price config c = Ok q -> exists t, parse_price t = Ok q.
Proof.
  unfold read_price.
  destruct (dict_getitem _ _) as [sel|]; simpl; [|discriminate].
  destruct (find_element c sel) as [el|]; simpl; [|discriminate].
  destruct (text el) as [t|]; simpl; [|discriminate].
  eauto.
Qed.

(** ** The loop over the containers *)

Lemma built_from_app (retailer : string) (config : RetailerConfig)
    (cs1 cs2 : list WebElement) :
  built_from retailer config (cs1 ++ cs2)
  = (built_from retailer config cs1 ++ built_from retailer config cs2)%list.
Proof. unfold built_from. apply flat_map_app. Qed.

Lemma built_from_skip (retailer : string) (config : RetailerConfig)
    (cs1 cs2 : list WebElement) (c : WebElement) (e : exn) :
  extract_element retailer config c = Raise e ->
  built_from retailer config (cs1 ++ c :: cs2)
  = built_from retailer config (cs1 ++ cs2).
Proof.
  intros H. rewrite !built_from_app. f_equal.
  unfold built_from at 1; simpl. now rewrite H.
Qed.

Lemma built_from_In (retailer : string) (config : RetailerConfig)
    (cs : list WebElement) (p : Product) :
  In p (built_from retailer config cs) <->
  exists c, In c cs /\ extract_element retailer config c = Ok p.
Proof.
  unfold built_from. rewrite in_flat_map. split.
  - intros [c [Hc Hp]]. exists c. split; [exact Hc|].
    destruct (extract_element retailer config c) as [p'|e]; simpl in Hp.
    + destruct Hp as [->|[]]. reflexivity.
    + destruct Hp.
  - intros [c [Hc Hp]]. exists c. split; [exact Hc|]. rewrite Hp. now left.
Qed.

Lemma extract_loop_spec (retailer : string) (config : RetailerConfig)
    (cs : list WebElement) :
  forall (acc : list Product) (w : World),
    extract_loop retailer config cs acc w
    = (Ok (acc ++ built_from retailer config cs)%list,
       logged (skipped_warnings retailer config cs) w).
Proof.
  induction cs as [|c cs IH]; intros acc w.
  - simpl. unfold ret. now rewrite app_nil_r, logged_nil.
  - cbn [extract_loop]. unfold bind, try_except, lift, ret.
    unfold built_from, skipped_warnings; cbn [flat_map].
    fold (built_from retailer config cs).
    fold (skipped_warnings retailer config cs).
    destruct (extract_element retailer config c) as [p|e].
    + rewrite IH. now rewrite <- app_assoc.
    + rewrite logging_run, IH, logged_logged. now rewrite app_nil_l.
Qed.

(** The loop raises nothing, whatever the elements do. *)
Lemma extract_loop_returns (retailer : string) (config : RetailerConfig)
    (cs : list WebElement) (acc : list Product) (w : World) :
  exists ps w', extract_loop retailer config cs acc w = (Ok ps, w').
Proof. rewrite extract_loop_spec. eauto. Qed.

(** ** One page *)

Lemma _extract_products_run (B : Browser) (self : IntelligentWebCrawler)
    (retailer : string) (config : RetailerConfig) (w : World) :
  _extract_products B self retailer config w =
  match driver self with
  | None => (Ok [], logged [(ERROR, ExtractionError retailer AttributeError)] w)
  | Some _ =>
      match dict_get (selectors config) "product_container" with
      | None =>
          (Ok [],
           logged [(ERROR, ExtractionError retailer
                             (KeyError "product_container"))] w)
      | Some selector =>
          match on_find_elements B (calls w) selector with
          | Raise e =>
              (Ok [],
               logged [(ERROR, ExtractionError retailer e)]
                 (called [FindElements selector] w))
          | Ok cs =>
              (Ok (built_from retailer config cs),
               logged (skipped_warnings retailer config cs)
                 (called [FindElements selector] w))
          end
      end
  end.
Proof.
  unfold _extract_products, try_except, bind, lift, dict_getitem.
  destruct (driver self) as [d|]; [|reflexivity].
  destruct (dict_get (selectors config) "product_container") as [sel|];
    [|reflexivity].
  rewrite driver_call_run.
  destruct (on_find_elements B (calls w) sel) as [cs|e]; [|reflexivity].
  now rewrite extract_loop_spec.
Qed.

(** [_extract_products] always returns: the products built from some
    list of containers, after calls that neither navigate nor scroll. *)
Lemma _extract_products_shape (B : Browser) (self : IntelligentWebCrawler)
    (retailer : string) (config : RetailerConfig) (w : World) :
  exists cs hs ls,
    _extract_products B self retailer config w
    = (Ok (built_from retailer config cs), logged ls (called hs w)) /\
    gets hs = [] /\ count_scrolls hs = 0.
Proof.
  rewrite _extract_products_run.
  destruct (driver self) as [d|].
  - destruct (dict_get (selectors config) "product_container") as [sel|].
    + destruct (on_find_elements B (calls w) sel) as [cs|e].
      * exists cs, [FindElements sel]. eexists. repeat split.
      * exists [], [FindElements sel]. eexists. repeat split.
    + exists [], []. eexists. rewrite called_nil. repeat split.
  - exists [], []. eexists. rewrite called_nil. repeat split.
Qed.

Lemma scroll_loop_ok (B : Browser) (n : nat) :
  (forall h, on_script B h scroll_script = None) ->
  forall w,
    scroll_loop B n w
    = (Ok tt, called (repeat (ExecuteScript scroll_script) n) w).
Proof.
  intros Hok. induction n as [|n IH]; intros w.
  - simpl. unfold ret. now rewrite called_nil.
  - cbn [scroll_loop]. unfold bind. rewrite driver_call_run, Hok. simpl.
    now rewrite IH, called_called.
Qed.

Lemma scroll_loop_shape (B : Browser) (n : nat) :
  forall w, exists r k,
    scroll_loop B n w
    = (r, called (repeat (ExecuteScript scroll_script) k) w).
Proof.
  induction n as [|n IH]; intros w.
  - exists (Ok tt), 0. simpl. unfold ret. now rewrite called_nil.
  - cbn [scroll_loop]. unfold bind. rewrite driver_call_run.
    destruct (returns_or_raises _) as [[]|e].
    + destruct (IH (called [ExecuteScript scroll_script] w)) as [r [k Hk]].
      exists r, (S k). now rewrite Hk, called_called.
    + now exists (Raise e), 1.
Qed.

(** A visit navigates exactly once, to its page, whatever happens next. *)
Lemma visit_page_shape (B : Browser) (self : IntelligentWebCrawler)
    (d : WebDriver) (key : string) (cfg : RetailerConfig) (page : string)
    (w : World) :
  exists r hs ls,
    visit_page B self d key cfg page w = (r, logged ls (called hs w)) /\
    gets hs = [page].
Proof.
  unfold visit_page, bind, lift. rewrite driver_call_run.
  destruct (returns_or_raises (on_get B (calls w) page)) as [[]|e].
  2:{ exists (Raise e), [Get page], []. now rewrite logged_nil. }
  destruct (wait_selector cfg) as [sel|e].
  2:{ exists (Raise e), [Get page], []. now rewrite logged_nil. }
  rewrite driver_call_run, called_called.
  destruct (returns_or_raises _) as [[]|e].
  2:{ exists (Raise e), ([Get page] ++ [WaitPresence sel])%list, [].
      now rewrite logged_nil. }
  set (w1 := called _ w).
  assert (Hscroll : exists r k,
    (if truthy (dict_get (crawl_strategy cfg) "scroll_pagination")
     then _scroll_page B d 5 else ret tt) w1
    = (r, called (repeat (ExecuteScript scroll_script) k) w1)).
  { destruct (truthy _).
    - apply scroll_loop_shape.
    - exists (Ok tt), 0. unfold ret. now rewrite called_nil. }
  destruct Hscroll as [r [k Hk]]. rewrite Hk. subst w1.
  rewrite called_called.
  destruct r as [[]|e].
  2:{ eexists (Raise e), _, []. rewrite logged_nil. split; [reflexivity|].
      rewrite !gets_app, gets_repeat_script. reflexivity. }
  destruct (_extract_products_shape B self key cfg
              (called (([Get page] ++ [WaitPresence sel]) ++
                       repeat (ExecuteScript scroll_script) k) w))
    as [cs [hs [ls [Hx [Hg _]]]]].
  rewrite Hx, called_called.
  eexists _, _, ls. split; [reflexivity|].
  rewrite !gets_app, gets_repeat_script, Hg. reflexivity.
Qed.

(** When navigation, wait and scrolling go through, a visit is those
    calls followed by the extraction. *)
Lemma visit_page_calls (B : Browser) (self : IntelligentWebCrawler)
    (d : WebDriver) (key : string) (cfg : RetailerConfig) (page sel : string)
    (w : World) :
  on_get B (calls w) page = None ->
  wait_selector cfg = Ok sel ->
  on_wait B (calls w ++ [Get page]) sel = None ->
  (forall h, on_script B h scroll_script = None) ->
  visit_page B self d key cfg page w
  = _extract_products B self key cfg
      (called (Get page :: WaitPresence sel ::
               (if truthy (dict_get (crawl_strategy cfg) "scroll_pagination")
                then repeat (ExecuteScript scroll_script) 5 else []))
         w).
Proof.
  intros Hget Hsel Hwait Hscript.
  unfold visit_page, bind, lift.
  rewrite driver_call_run, Hget, Hsel. cbn [returns_or_raises].
  rewrite driver_call_run. cbn [calls called]. rewrite Hwait.
  cbn [returns_or_raises]. rewrite called_called.
  destruct (truthy _).
  - unfold _scroll_page. rewrite (scroll_loop_ok B _ Hscript), called_called.
    reflexivity.
  - reflexivity.
Qed.

(** ** The pages of a retailer *)

Lemma page_outcomes_length (B : Browser) (self : IntelligentWebCrawler)
    (d : WebDriver) (key : string) (cfg : RetailerConfig)
    (pages : list string) :
  forall w, length (page_outcomes B self d key cfg pages w) = length pages.
Proof.
  induction pages as [|page rest IH]; intros w; [reflexivity|].
  cbn [page_outcomes].
  destruct (visit_page B self d key cfg page w) as [r w1].
  simpl. now rewrite IH.
Qed.

Lemma crawl_pages_spec (B : Browser) (self : IntelligentWebCrawler)
    (d : WebDriver) (key : string) (cfg : RetailerConfig)
    (pages : list string) :
  forall acc w, exists w' ls,
    crawl_pages B self d key cfg pages acc w
    = (Ok (acc ++ flat_map products_of
                    (page_outcomes B self d key cfg pages w))%list, w') /\
    gets (calls w') = (gets (calls w) ++ pages)%list /\
    files w' = files w /\
    logs w' = (logs w ++ ls)%list /\
    forall page e,
      In (page, Raise e)
         (combine pages (page_outcomes B self d key cfg pages w)) ->
      In (ERROR, PageError key page e) ls.
Proof.
  induction pages as [|page rest IH]; intros acc w.
  - exists w, []. simpl. unfold ret. rewrite !app_nil_r.
    repeat split. intros ? ? [].
  - cbn [crawl_pages page_outcomes]. unfold bind, try_except.
    destruct (visit_page_shape B self d key cfg page w)
      as [r [hs [ls [Hv Hg]]]].
    rewrite Hv.
    destruct r as [found|e].
    + rewrite logging_run. unfold ret.
      cbn [page_record].
      destruct (IH (acc ++ found)%list
                  (logged [(INFO, Crawled key (length found) page)]
                     (logged ls (called hs w))))
        as [w' [ls' [Hrun [Hgets [Hfiles [Hlogs Hrec]]]]]].
      exists w', (ls ++ [(INFO, Crawled key (length found) page)] ++ ls')%list.
      rewrite Hrun. cbn [flat_map products_of]. rewrite <- app_assoc.
      split; [reflexivity|].
      split.
      { rewrite Hgets. cbn [calls logged called]. rewrite gets_app, Hg.
        now rewrite <- app_assoc. }
      split; [now rewrite Hfiles|].
      split.
      { rewrite Hlogs. cbn [logs logged called]. now rewrite <- !app_assoc. }
      intros p e Hin. cbn [combine] in Hin. destruct Hin as [Heq|Hin].
      * discriminate Heq.
      * apply in_or_app; right. apply in_or_app; right. now apply Hrec.
    + rewrite logging_run. unfold ret.
      cbn [page_record].
      destruct (IH acc
                  (logged [(ERROR, PageError key page e)]
                     (logged ls (called hs w))))
        as [w' [ls' [Hrun [Hgets [Hfiles [Hlogs Hrec]]]]]].
      exists w', (ls ++ [(ERROR, PageError key page e)] ++ ls')%list.
      rewrite Hrun. cbn [flat_map products_of]. rewrite app_nil_l.
      split; [reflexivity|].
      split.
      { rewrite Hgets. cbn [calls logged called]. rewrite gets_app, Hg.
        now rewrite <- app_assoc. }
      split; [now rewrite Hfiles|].
      split.
      { rewrite Hlogs. cbn [logs logged called]. now rewrite <- !app_assoc. }
      intros p e' Hin. cbn [combine] in Hin. destruct Hin as [Heq|Hin].
      * injection Heq as <- <-. apply in_or_app; right. now left.
      * apply in_or_app; right. apply in_or_app; right. now apply Hrec.
Qed.

(** ** The result dictionary *)

Lemma dict_get_set {V} (d : dict V) (k : string) (v : V) (k' : string) :
  dict_get (dict_set d k v) k'
  = if String.eqb k' k then Some v else dict_get d k'.
Proof.
  induction d as [|[k0 v0] d IH]; simpl.
  - reflexivity.
  - destruct (String.eqb k k0) eqn:Hk; simpl.
    + apply String.eqb_eq in Hk; subst k0.
      now destruct (String.eqb k' k).
    + destruct (String.eqb k' k0) eqn:Hk0.
      * apply String.eqb_eq in Hk0; subst k0.
        rewrite String.eqb_sym in Hk. now rewrite Hk.
      * exact IH.
Qed.


Lemma collect_run (completed : list (string * Result (list Product))) :
  forall all self w, exists all' self',
    collect completed all self w
    = (Ok (all', self'), logged (crash_records completed) w) /\
    self' = {| driver := driver self; products := products self;
               successful_retailers :=
                 (successful_retailers self ++ successes completed)%list |} /\
    forall r, dict_get all' r
              = match last_returned completed r with
                | Some found => Some found
                | None => dict_get all r
                end.
Proof.
  induction completed as [|[r0 o] rest IH]; intros all self w.
  - exists all, self. simpl. unfold ret. rewrite logged_nil, app_nil_r.
    now destruct self.
  - cbn [collect]. destruct o as [found|e].
    + match goal with
      | |- context [collect rest ?a ?s w] => destruct (IH a s w)
          as [all' [self' [Hrun [Hd Hget]]]]
      end.
      exists all', self'. rewrite Hrun. split; [reflexivity|]. split.
      { rewrite Hd. unfold successes; cbn [flat_map fst snd].
        destruct found as [|p found]; cbn [driver products successful_retailers].
        - reflexivity.
        - now rewrite <- app_assoc. }
      intros r. rewrite Hget. cbn [last_returned].
      destruct (last_returned rest r); [reflexivity|].
      rewrite dict_get_set. now destruct (String.eqb r r0).
    + unfold bind. rewrite logging_run.
      destruct (IH all self (logged [(ERROR, RetailerError r0 e)] w))
        as [all' [self' [Hrun [Hd Hget]]]].
      exists all', self'. rewrite Hrun, logged_logged.
      split; [reflexivity|]. split; [exact Hd|].
      intros r. rewrite Hget. cbn [last_returned].
      now destruct (last_returned rest r).
Qed.

Lemma _save_to_csv_ok (B : Browser) (d : dict (list Product)) :
  (forall f, on_to_csv B f = None) ->
  forall w,
    _save_to_csv B d w
    = (Ok tt, {| calls := calls w; logs := (logs w ++ csv_records d)%list;
                 files := (files w ++ csv_files d)%list |}).
Proof.
  intros Hok. induction d as [|[r found] d IH]; intros w.
  - simpl. unfold ret. now rewrite !app_nil_r, world_eta.
  - cbn [_save_to_csv]. unfold bind. rewrite Hok, logging_run, IH.
    unfold logged; simpl. now rewrite <- !app_assoc.
Qed.

(** Whatever holds of every Product an element can yield holds of every
    Product of a page. *)
Lemma _extract_products_Forall (B : Browser) (self : IntelligentWebCrawler)
    (retailer_key : string) (config : RetailerConfig) (w : World)
    (P : Product -> Prop) :
  (forall c p, extract_element retailer_key config c = Ok p -> P p) ->
  exists found w',
    _extract_products B self retailer_key config w = (Ok found, w') /\
    Forall P found.
Proof.
  intros HP.
  destruct (_extract_products_shape B self retailer_key config w)
    as [cs [hs [ls [Hrun _]]]].
  rewrite Hrun. eexists _, _. split; [reflexivity|].
  apply Forall_forall. intros p Hp.
  apply built_from_In in Hp as [c [_ Hc]]. eauto.
Qed.

Lemma extract_loop_skip (retailer_key : string) (config : RetailerConfig)
    (before after : list WebElement) (c : WebElement) (e : exn)
    (acc : list Product) (w : World) :
  extract_element retailer_key config c = Raise e ->
  fst (extract_loop retailer_key config (before ++ c :: after) acc w)
  = fst (extract_loop retailer_key config (before ++ after) acc w).
Proof.
  intros H. rewrite !extract_loop_spec. cbn [fst].
  now rewrite (built_from_skip _ _ before after c H).
Qed.

(** ** Price parsing *)

(** Without normalization the text "R 1 299,99" loses its comma with
    the blanks and parses to 129999: turning a decimal comma into a
    point is left to whoever supplies the text. *)
Lemma decimal_comma_unnormalized :
  re_sub_non_digit_dot "R 1 299,99" = "129999" /\
  parse_price "R 1 299,99" = Ok 129999%Q /\
  ~ (129999 == 1299.99)%Q.
Proof.
  split; [reflexivity|]. split; [reflexivity|].
  intros H. vm_compute in H. discriminate H.
Qed.

(** C1: the cleaned text is the raw text without the characters that
    are neither digit nor point, and the price is its value.
    "$1,299.99", "1299.99" and, with its decimal comma normalized to a
    point, "R 1 299.99" all parse to 1299.99; the code itself does not
    normalize, the text "R 1 299,99" as it stands parses to 129999.  A
    text whose cleaned remainder is empty or is no numeral ("Out of
    stock", "v1.2.3") raises [ValueError], and the loop passes over an
    element whose price cannot be read: it logs one warning and goes on
    with the products it had, raising nothing. *)
Theorem C1_price_parsing :
  (forall s,
     list_ascii_of_string (re_sub_non_digit_dot s)
     = filter (fun c => is_digit c || is_dot c) (list_ascii_of_string s)) /\
  parse_price "$1,299.99" = Ok 1299.99%Q /\
  parse_price "1299.99" = Ok 1299.99%Q /\
  parse_price "R 1 299.99" = Ok 1299.99%Q /\
  parse_price "R 1 299,99" = Ok 129999%Q /\
  parse_price "Out of stock" = Raise ValueError /\
  parse_price "v1.2.3" = Raise ValueError /\
  (forall s, re_sub_non_digit_dot s = "" -> parse_price s = Raise ValueError) /\
  (forall retailer_key config c rest acc w e,
     read_price config c = Raise e ->
     exists e',
       extract_loop retailer_key config (c :: rest) acc w
       = extract_loop retailer_key config rest acc
           (logged [(WARNING, ElementError e')] w)).
Proof.
  split; [exact re_sub_keeps|].
  do 6 (split; [reflexivity|]).
  split.
  - intros s Hs. unfold parse_price. now rewrite Hs.
  - intros retailer_key config c rest acc w e He.
    destruct (extract_element_no_price retailer_key config c He) as [e' He'].
    exists e'. rewrite !extract_loop_spec, logged_logged.
    unfold built_from, skipped_warnings; cbn [flat_map]. now rewrite He'.
Qed.

(** C1, on a page: of a sold-out product and a priced one, the priced
    one alone is returned, after one warning. *)
Lemma C1_price_parsing_witness :
  read_price pnp_config sold_out = Raise ValueError /\
  exists e',
    extract_loop "pick_n_pay" pnp_config [sold_out; soap] [] new_World
    = extract_loop "pick_n_pay" pnp_config [soap] []
        (logged [(WARNING, ElementError e')] new_World).
Proof.
  split; [reflexivity|].
  exact (proj2 (proj2 (proj2 (proj2 (proj2 (proj2 (proj2 (proj2
           C1_price_parsing)))))))
         "pick_n_pay" pnp_config sold_out [soap] [] new_World ValueError
         eq_refl).
Defined.

(** ** Elements of a page *)

(** C2: when the driver hands over the containers of a page, the result
    is the ordered sequence of the Products of the elements whose name
    and price could be read; each other element costs one warning and
    nothing else, so the products before and after it are all there. *)
Theorem C2_element_isolation (B : Browser) (self : IntelligentWebCrawler)
    (d : WebDriver) (retailer_key : string) (config : RetailerConfig)
    (selector : string) (containers : list WebElement) (w : World) :
  driver self = Some d ->
  dict_get (selectors config) "product_container" = Some selector ->
  on_find_elements B (calls w) selector = Ok containers ->
  _extract_products B self retailer_key config w
  = (Ok (built_from retailer_key config containers),
     logged (skipped_warnings retailer_key config containers)
       (called [FindElements selector] w)) /\
  (forall p, In p (built_from retailer_key config containers) <->
             exists c, In c containers /\
                       extract_element retailer_key config c = Ok p) /\
  (forall before c after e,
     containers = (before ++ c :: after)%list ->
     extract_element retailer_key config c = Raise e ->
     built_from retailer_key config containers
     = (built_from retailer_key config before
        ++ built_from retailer_key config after)%list).
Proof.
  intros Hd Hsel Hfind. split; [|split].
  - now rewrite _extract_products_run, Hd, Hsel, Hfind.
  - intros p. apply built_from_In.
  - intros before c after e -> He.
    now rewrite (built_from_skip _ _ before after c He), built_from_app.
Qed.

(** C2 on a page of four listings, the second without a name and the
    third sold out. *)
Lemma C2_element_isolation_witness :
  _extract_products (one_page [milk; nameless; sold_out; soap]) a_crawler
    "pick_n_pay" pnp_config new_World
  = (Ok [new_Product "Full Cream Milk 2L" 34.99%Q "pick_n_pay";
         new_Product "Bath Soap" 1299.99%Q "pick_n_pay"],
     {| calls := [FindElements ".product-item"];
        logs := [(WARNING, ElementError NoSuchElementException);
                 (WARNING, ElementError ValueError)];
        files := [] |}).
Proof.
  exact (proj1 (C2_element_isolation
                  (one_page [milk; nameless; sold_out; soap]) a_crawler
                  "pick_n_pay" pnp_config
                  (d := Chrome true) (selector := ".product-item")
                  (containers := [milk; nameless; sold_out; soap])
                  new_World eq_refl eq_refl eq_refl)).
Defined.

(** ** Invariants of the Products *)

(** C6: every Product of a page has the price its element's price text
    parsed to, and that price is not negative; an element whose price
    cannot be read or parsed adds no Product, the others are built as if
    it were not there. *)
Theorem C6_price_invariant (B : Browser) (self : IntelligentWebCrawler)
    (retailer_key : string) (config : RetailerConfig) (w : World) :
  (exists found w',
     _extract_products B self retailer_key config w = (Ok found, w') /\
     Forall (fun p =>
               (0 <= price p)%Q /\
               exists c, read_price config c = Ok (price p) /\
                         exists t, parse_price t = Ok (price p)) found) /\
  (forall before c after acc e,
     read_price config c = Raise e ->
     (exists e', extract_element retailer_key config c = Raise e') /\
     fst (extract_loop retailer_key config (before ++ c :: after) acc w)
     = fst (extract_loop retailer_key config (before ++ after) acc w)).
Proof.
  split.
  - apply _extract_products_Forall. intros c p Hp.
    apply extract_element_ok in Hp as [_ [Hprice _]].
    destruct (read_price_parsed config c Hprice) as [t Ht].
    split; [exact (parse_price_nonneg t Ht)|]. eauto.
  - intros before c after acc e He.
    destruct (extract_element_no_price retailer_key config c He) as [e' He'].
    split; [eauto|]. exact (extract_loop_skip _ _ before after c acc w He').
Qed.

(** C6 on a page with a sold-out listing between two priced ones. *)
Lemma C6_price_invariant_witness :
  read_price pnp_config sold_out = Raise ValueError /\
  (exists e', extract_element "pick_n_pay" pnp_config sold_out = Raise e') /\
  fst (extract_loop "pick_n_pay" pnp_config ([milk] ++ sold_out :: [soap]) []
         new_World)
  = fst (extract_loop "pick_n_pay" pnp_config ([milk] ++ [soap]) []
           new_World).
Proof.
  split; [reflexivity|].
  exact (proj2 (C6_price_invariant (one_page []) a_crawler "pick_n_pay"
                  pnp_config new_World)
           [milk] sold_out [soap] [] ValueError eq_refl).
Defined.

(** C7, counterexample: a listing whose name text is blank and whose
    price reads 5 yields a Product, and its name is the empty string. *)
Lemma C7_blank_name_counterexample :
  read_name pnp_config blank_name = Ok "" /\
  fst (_extract_products (one_page [blank_name]) a_crawler "pick_n_pay"
         pnp_config new_World)
  = Ok [new_Product "" 5%Q "pick_n_pay"].
Proof. split; reflexivity. Qed.

(** C7, as amended: every Product of a page carries the retailer it was
    asked for, the stripped text of its element's name and the parsed
    price of that element; an element whose name cannot be read adds no
    Product.  The name is not checked further: an element whose name
    strips to the empty string and whose price parses yields a Product
    with the empty name. *)
Theorem C7_name_read (B : Browser) (self : IntelligentWebCrawler)
    (retailer_key : string) (config : RetailerConfig) (w : World) :
  (exists found w',
     _extract_products B self retailer_key config w = (Ok found, w') /\
     Forall (fun p =>
               retailer p = retailer_key /\
               exists c, read_name config c = Ok (name p) /\
                         read_price config c = Ok (price p)) found) /\
  (forall before c after acc e,
     read_name config c = Raise e ->
     extract_element retailer_key config c = Raise e /\
     fst (extract_loop retailer_key config (before ++ c :: after) acc w)
     = fst (extract_loop retailer_key config (before ++ after) acc w)) /\
  (forall c q,
     read_name config c = Ok "" -> read_price config c = Ok q ->
     extract_element retailer_key config c
     = Ok (new_Product "" q retailer_key)).
Proof.
  split; [|split].
  - apply _extract_products_Forall. intros c p Hp.
    apply extract_element_ok in Hp as [Hn [Hq Heq]].
    split; [rewrite Heq; reflexivity|]. eauto.
  - intros before c after acc e He.
    pose proof (extract_element_no_name retailer_key config c He) as He'.
    split; [exact He'|]. exact (extract_loop_skip _ _ before after c acc w He').
  - intros c q Hn Hq. unfold extract_element. now rewrite Hn, Hq.
Qed.

(** C7 on a page with a nameless listing between two named ones. *)
Lemma C7_name_read_witness :
  read_name pnp_config nameless = Raise NoSuchElementException /\
  extract_element "pick_n_pay" pnp_config nameless
  = Raise NoSuchElementException /\
  fst (extract_loop "pick_n_pay" pnp_config ([milk] ++ nameless :: [soap]) []
         new_World)
  = fst (extract_loop "pick_n_pay" pnp_config ([milk] ++ [soap]) []
           new_World).
Proof.
  split; [reflexivity|].
  exact (proj1 (proj2 (C7_name_read (one_page []) a_crawler "pick_n_pay"
                         pnp_config new_World))
           [milk] nameless [soap] [] NoSuchElementException eq_refl).
Defined.

(** C9, counterexample: the milk listing has a category element reading
    "Dairy" under the retailer's category selector, and its Product is
    filed under "Uncategorized". *)
Lemma C9_category_counterexample :
  dict_get (selectors pnp_config) "category" = Some ".category-breadcrumb" /\
  and_then (find_element milk ".category-breadcrumb") text = Ok "Dairy" /\
  fst (_extract_products (one_page [milk]) a_crawler "pick_n_pay"
         pnp_config new_World)
  = Ok [new_Product "Full Cream Milk 2L" 34.99%Q "pick_n_pay"] /\
  category (new_Product "Full Cream Milk 2L" 34.99%Q "pick_n_pay")
  = "Uncategorized".
Proof. repeat split; reflexivity. Qed.

(** C9, as amended: the pipeline reads the name and the price of an
    element and nothing else; every Product of a page has the defaults
    in its other fields, category "Uncategorized", availability
    "Unknown", no url, no image, no original price and no discount,
    whatever the element holds. *)
Theorem C9_defaults_only (B : Browser) (self : IntelligentWebCrawler)
    (retailer_key : string) (config : RetailerConfig) (w : World) :
  exists found w',
    _extract_products B self retailer_key config w = (Ok found, w') /\
    Forall (fun p =>
              category p = "Uncategorized" /\ availability p = "Unknown" /\
              product_url p = None /\ image_url p = None /\
              original_price p = None /\ discount_percentage p = None)
      found.
Proof.
  apply _extract_products_Forall. intros c p Hp.
  apply extract_element_ok in Hp as [_ [_ Heq]].
  rewrite Heq. repeat split.
Qed.

(** ** Unknown retailers *)

(** C10: asked for a retailer that is not registered, [crawl_retailer]
    returns the empty list and raises nothing; it makes no driver call
    and writes no file, and logs one error. *)
Theorem C10_unknown_retailer (B : Browser) (self : IntelligentWebCrawler)
    (retailer_key : string) (w : World) :
  dict_get RETAILERS retailer_key = None ->
  exists m,
    crawl_retailer B self retailer_key w
    = (Ok [], {| calls := calls w; logs := (logs w ++ [(ERROR, m)])%list;
                 files := files w |}).
Proof.
  intros Hkey. unfold crawl_retailer. rewrite Hkey.
  destruct (driver self); eexists; reflexivity.
Qed.

Lemma C10_unknown_retailer_witness :
  dict_get RETAILERS "spar" = None /\
  exists m,
    crawl_retailer pnp_site a_crawler "spar" new_World
    = (Ok [], {| calls := []; logs := [(ERROR, m)]; files := [] |}).
Proof.
  split; [reflexivity|].
  exact (C10_unknown_retailer pnp_site a_crawler "spar" new_World eq_refl).
Defined.

(** ** Pages of a retailer *)

(** C3, counterexample: with a second page that times out and with a
    second page that loads empty, [crawl_retailer] returns the same
    value, the products of the first and third page, although the
    specification's status is partial for the one run and success for
    the other: the returned list carries no status. *)
Lemma C3_status_counterexample :
  fst (crawl_retailer pnp_site_timeout a_crawler "pick_n_pay" new_World)
  = Ok [new_Product "Full Cream Milk 2L" 34.99%Q "pick_n_pay";
        new_Product "Bath Soap" 1299.99%Q "pick_n_pay"] /\
  fst (crawl_retailer pnp_site a_crawler "pick_n_pay" new_World)
  = fst (crawl_retailer pnp_site_timeout a_crawler "pick_n_pay" new_World) /\
  spec_status (page_outcomes pnp_site_timeout a_crawler (Chrome true)
                 "pick_n_pay" pnp_config (product_pages pnp_config)
                 new_World) = partial /\
  spec_status (page_outcomes pnp_site a_crawler (Chrome true)
                 "pick_n_pay" pnp_config (product_pages pnp_config)
                 new_World) = success.
Proof. repeat split; vm_compute; reflexivity. Qed.

(** C3, as amended: a crawl of a registered retailer raises nothing and
    navigates to every configured page, in order, whatever the earlier
    pages did; it returns the products of the pages that did not fail,
    in page order, and logs an error for each page that failed.  What
    is returned is the bare list of products: no status and no error
    list come with it. *)
Theorem C3_page_isolation (B : Browser) (self : IntelligentWebCrawler)
    (d : WebDriver) (retailer_key : string) (cfg : RetailerConfig)
    (w : World) :
  driver self = Some d ->
  dict_get RETAILERS retailer_key = Some cfg ->
  let outcomes :=
    page_outcomes B self d retailer_key cfg (product_pages cfg) w in
  exists w' ls,
    crawl_retailer B self retailer_key w
    = (Ok (flat_map products_of outcomes), w') /\
    length outcomes = length (product_pages cfg) /\
    gets (calls w') = (gets (calls w) ++ product_pages cfg)%list /\
    logs w' = (logs w ++ ls)%list /\
    forall page e,
      In (page, Raise e) (combine (product_pages cfg) outcomes) ->
      In (ERROR, PageError retailer_key page e) ls.
Proof.
  intros Hd Hcfg outcomes. unfold crawl_retailer. rewrite Hd, Hcfg.
  destruct (crawl_pages_spec B self d retailer_key cfg (product_pages cfg)
              [] w) as [w' [ls [Hrun [Hgets [_ [Hlogs Hrec]]]]]].
  exists w', ls. rewrite Hrun. cbn [app].
  repeat split; try assumption.
  apply page_outcomes_length.
Qed.

(** C3 on Pick n Pay with the second of its three pages timing out. *)
Lemma C3_page_isolation_witness :
  driver a_crawler = Some (Chrome true) /\
  dict_get RETAILERS "pick_n_pay" = Some pnp_config /\
  exists w' ls,
    crawl_retailer pnp_site_timeout a_crawler "pick_n_pay" new_World
    = (Ok (flat_map products_of
             (page_outcomes pnp_site_timeout a_crawler (Chrome true)
                "pick_n_pay" pnp_config (product_pages pnp_config)
                new_World)), w') /\
    length (page_outcomes pnp_site_timeout a_crawler (Chrome true)
              "pick_n_pay" pnp_config (product_pages pnp_config) new_World)
    = length (product_pages pnp_config) /\
    gets (calls w')
    = (gets (calls new_World) ++ product_pages pnp_config)%list /\
    logs w' = (logs new_World ++ ls)%list /\
    forall page e,
      In (page, Raise e)
         (combine (product_pages pnp_config)
            (page_outcomes pnp_site_timeout a_crawler (Chrome true)
               "pick_n_pay" pnp_config (product_pages pnp_config)
               new_World)) ->
      In (ERROR, PageError "pick_n_pay" page e) ls.
Proof.
  split; [reflexivity|]. split; [reflexivity|].
  exact (C3_page_isolation pnp_site_timeout a_crawler "pick_n_pay"
           new_World (d := Chrome true) (cfg := pnp_config)
           eq_refl eq_refl).
Defined.

(** ** Scrolling *)

(** C5, counterexample: Woolworths is configured with [infinite_scroll];
    on a site that shows one more product after every scroll, so that no
    two scrolls are without growth, its crawl runs no scroll at all and
    returns the one product each page shows at first. *)
Lemma C5_infinite_scroll_counterexample :
  truthy (dict_get (crawl_strategy (config_of "woolworths"))
            "infinite_scroll") = true /\
  count_scrolls
    (calls (snd (crawl_retailer growing_site a_crawler "woolworths"
                   new_World))) = 0 /\
  fst (crawl_retailer growing_site a_crawler "woolworths" new_World)
  = Ok [new_Product "Full Cream Milk 2L" 34.99%Q "woolworths";
        new_Product "Full Cream Milk 2L" 34.99%Q "woolworths"].
Proof. repeat split; vm_compute; reflexivity. Qed.

(** C5, as amended: [_scroll_page] runs the scroll script exactly
    [max_scrolls] times when no run of it raises, whatever the page
    shows in between; a page visit whose navigation and wait go through
    runs it five times when the strategy's [scroll_pagination] is set,
    and not at all otherwise.  Nothing counts containers between
    scrolls and no scrolling ends early. *)
Theorem C5_scroll_count (B : Browser) (self : IntelligentWebCrawler)
    (d : WebDriver) (retailer_key : string) (cfg : RetailerConfig)
    (page sel : string) (max_scrolls : Z) (w : World) :
  on_get B (calls w) page = None ->
  wait_selector cfg = Ok sel ->
  on_wait B (calls w ++ [Get page]) sel = None ->
  (forall h, on_script B h scroll_script = None) ->
  _scroll_page B d max_scrolls w
  = (Ok tt,
     called (repeat (ExecuteScript scroll_script) (Z.to_nat max_scrolls)) w) /\
  count_scrolls (calls (snd (visit_page B self d retailer_key cfg page w)))
  = count_scrolls (calls w)
    + (if truthy (dict_get (crawl_strategy cfg) "scroll_pagination")
       then 5 else 0).
Proof.
  intros Hget Hsel Hwait Hscript. split.
  - unfold _scroll_page. now apply scroll_loop_ok.
  - rewrite (visit_page_calls B self d retailer_key cfg page w
               Hget Hsel Hwait Hscript).
    match goal with
    | |- context [_extract_products B self retailer_key cfg ?w1] =>
        destruct (_extract_products_shape B self retailer_key cfg w1)
          as [cs [hs [ls [Hrun [_ Hcount]]]]]
    end.
    rewrite Hrun. cbn [snd calls logged called].
    rewrite !count_scrolls_app, Hcount, Nat.add_0_r. f_equal.
    destruct (truthy _); [|reflexivity].
    exact (count_scrolls_repeat 5).
Qed.

(** C5 on the first page of Checkers, whose strategy sets
    [scroll_pagination], on the site that grows with every scroll. *)
Lemma C5_scroll_count_witness :
  wait_selector (config_of "checkers") = Ok ".product-grid" /\
  _scroll_page growing_site (Chrome true) 5 new_World
  = (Ok tt,
     called (repeat (ExecuteScript scroll_script) (Z.to_nat 5)) new_World) /\
  count_scrolls
    (calls (snd (visit_page growing_site a_crawler (Chrome true) "checkers"
                   (config_of "checkers")
                   "https://www.checkers.co.za/all-products" new_World)))
  = count_scrolls (calls new_World)
    + (if truthy (dict_get (crawl_strategy (config_of "checkers"))
                    "scroll_pagination")
       then 5 else 0).
Proof.
  split; [reflexivity|].
  exact (C5_scroll_count growing_site a_crawler (Chrome true) "checkers"
           (config_of "checkers") "https://www.checkers.co.za/all-products"
           5 new_World (sel := ".product-grid")
           eq_refl eq_refl eq_refl (fun _ => eq_refl)).
Defined.

(** ** The worker pool *)


Lemma last_returned_In (completed : list (string * Result (list Product)))
    (r : string) (found : list Product) :
  last_returned completed r = Some found -> In (r, Ok found) completed.
Proof.
  induction completed as [|[r' o] rest IH]; [discriminate|].
  cbn [last_returned]. destruct (last_returned rest r) as [f|].
  - intros H. right. now apply IH.
  - destruct o as [f|e]; [|discriminate].
    destruct (String.eqb r r') eqn:Hr; [|discriminate].
    apply String.eqb_eq in Hr; subst r'. intros H; injection H as ->.
    now left.
Qed.

Lemma last_returned_some (completed : list (string * Result (list Product)))
    (r : string) (found : list Product) :
  In (r, Ok found) completed ->
  exists found', last_returned completed r = Some found'.
Proof.
  induction completed as [|[r' o] rest IH]; [intros []|].
  intros [Heq|Hin]; cbn [last_returned].
  - injection Heq as -> ->. destruct (last_returned rest r); eauto.
    rewrite String.eqb_refl. eauto.
  - destruct (IH Hin) as [f Hf]. rewrite Hf. eauto.
Qed.

Lemma successes_all_empty (completed : list (string * Result (list Product))) :
  (forall r o, In (r, o) completed -> o = Ok []) -> successes completed = [].
Proof.
  induction completed as [|[r o] rest IH]; intros H; [reflexivity|].
  unfold successes; cbn [flat_map fst snd].
  rewrite (H r o (or_introl eq_refl)). cbn [app].
  apply IH. intros r' o' Hin. apply (H r' o'). now right.
Qed.

Lemma parallel_crawl_run (B : Browser) (pool : ThreadPoolExecutor)
    (self : IntelligentWebCrawler) (retailers : option (list string))
    (w : World) :
  (forall f, on_to_csv B f = None) ->
  let completed := as_completed pool (submitted retailers) in
  exists all,
    parallel_crawl B pool self retailers w
    = (Ok (all,
           {| driver := driver self; products := products self;
              successful_retailers :=
                (successful_retailers self ++ successes completed)%list |}),
       {| calls := calls w;
          logs := (logs w ++ crash_records completed ++ csv_records all)%list;
          files := (files w ++ csv_files all)%list |}) /\
    forall r, dict_get all r = last_returned completed r.
Proof.
  intros Hcsv completed. unfold parallel_crawl, bind.
  fold (submitted retailers). fold completed.
  destruct (collect_run completed [] self w)
    as [all [self' [Hrun [Hself Hget]]]].
  rewrite Hrun. cbn [fst]. rewrite (_save_to_csv_ok B all Hcsv).
  exists all. unfold ret. rewrite Hself. cbn [calls logs files logged].
  rewrite <- app_assoc. split; [reflexivity|].
  intros r. rewrite Hget. now destruct (last_returned completed r).
Qed.




(** ** A driver that does not start *)

Lemma crawl_retailer_no_driver (B : Browser) (self : IntelligentWebCrawler)
    (retailer_key : string) (w : World) :
  driver self = None ->
  crawl_retailer B self retailer_key w
  = (Ok [], logged [(ERROR, DriverNotInitialized)] w).
Proof. intros H. unfold crawl_retailer. now rewrite H. Qed.

(** C8, counterexample: on a machine where Chrome does not start, the
    constructor returns a crawler without driver, and its crawl cycle
    still submits the three registered retailers and returns an empty
    list for each of them, with one CSV file each. *)
Lemma C8_units_dispatched_counterexample :
  on_chrome no_chrome true = Some WebDriverException /\
  fst (__init__ no_chrome true new_World) = Ok no_driver /\
  parallel_crawl no_chrome (inline_pool no_chrome no_driver new_World)
    no_driver None new_World
  = (Ok ([("pick_n_pay", []); ("checkers", []); ("woolworths", [])],
         no_driver),
     {| calls := [];
        logs := [(INFO, SavedCsv 0 "pick_n_pay" "pick_n_pay_products.csv");
                 (INFO, SavedCsv 0 "checkers" "checkers_products.csv");
                 (INFO, SavedCsv 0 "woolworths" "woolworths_products.csv")];
        files := [("pick_n_pay_products.csv", []);
                  ("checkers_products.csv", []);
                  ("woolworths_products.csv", [])] |}).
Proof. repeat split. Qed.

(** C8, as amended: when Chrome cannot start, the constructor logs the
    error and returns a crawler whose driver is [None]; nothing is
    aborted.  Every crawl of a retailer by that crawler logs an error
    and returns the empty list without a driver call.  A crawl cycle
    whose units are runs of [crawl_retailer] returns, when the CSV
    files can be written, a dictionary holding the empty list for every
    retailer submitted, and leaves the crawler as it was. *)
Theorem C8_driver_failure (B : Browser) (headless : bool) (e : exn)
    (w : World) :
  on_chrome B headless = Some e ->
  exists self,
    __init__ B headless w = (Ok self, logged [(ERROR, SetupFailed e)] w) /\
    driver self = None /\
    (forall retailer_key w1,
       crawl_retailer B self retailer_key w1
       = (Ok [], logged [(ERROR, DriverNotInitialized)] w1)) /\
    (forall pool retailers w1,
       (forall f, on_to_csv B f = None) ->
       Permutation (map fst (as_completed pool (submitted retailers)))
         (submitted retailers) ->
       (forall r o,
          In (r, o) (as_completed pool (submitted retailers)) ->
          exists w2, o = fst (crawl_retailer B self r w2)) ->
       exists all w',
         parallel_crawl B pool self retailers w1 = (Ok (all, self), w') /\
         (forall r, In r (submitted retailers) -> dict_get all r = Some []) /\
         calls w' = calls w1).
Proof.
  intros Hchrome.
  exists {| driver := None; products := []; successful_retailers := [] |}.
  split.
  { unfold __init__, _setup_selenium, bind. now rewrite Hchrome. }
  split; [reflexivity|].
  split.
  { intros retailer_key w1. now apply crawl_retailer_no_driver. }
  intros pool retailers w1 Hcsv Hperm Hunits.
  set (self := {| driver := None; products := [];
                  successful_retailers := [] |}) in *.
  set (completed := as_completed pool (submitted retailers)) in *.
  assert (Hempty : forall r o, In (r, o) completed -> o = Ok []).
  { intros r o Hin. destruct (Hunits r o Hin) as [w2 ->].
    now rewrite crawl_retailer_no_driver. }
  destruct (parallel_crawl_run B pool self retailers w1 Hcsv)
    as [all [Hrun Hget]]. fold completed in Hrun, Hget.
  rewrite (successes_all_empty completed Hempty) in Hrun.
  exists all. eexists. split; [exact Hrun|]. split; [|reflexivity].
  intros r Hr. rewrite Hget.
  apply (Permutation_in _ (Permutation_sym Hperm)) in Hr.
  apply in_map_iff in Hr as [[r' o] [Heq Hin]]. cbn [fst] in Heq; subst r'.
  pose proof (Hempty r o Hin) as ->.
  destruct (last_returned_some completed r [] Hin) as [found Hfound].
  rewrite Hfound. f_equal.
  apply last_returned_In in Hfound. apply Hempty in Hfound.
  now injection Hfound.
Qed.

(** C8 on the machine without Chrome, with a pool that runs the units
    one after the other. *)
Lemma C8_driver_failure_witness :
  on_chrome no_chrome true = Some WebDriverException /\
  exists self,
    __init__ no_chrome true new_World
    = (Ok self, logged [(ERROR, SetupFailed WebDriverException)] new_World) /\
    driver self = None /\
    exists all w',
      parallel_crawl no_chrome (inline_pool no_chrome self new_World) self
        None new_World = (Ok (all, self), w') /\
      (forall r, In r (submitted None) -> dict_get all r = Some []) /\
      calls w' = calls new_World.
Proof.
  split; [reflexivity|].
  destruct (C8_driver_failure no_chrome true new_World
              (e := WebDriverException) eq_refl)
    as [self [Hinit [Hd [_ Hcycle]]]].
  exists self. split; [exact Hinit|]. split; [exact Hd|].
  apply (Hcycle (inline_pool no_chrome self new_World) None new_World).
  - intros f. reflexivity.
  - cbn [as_completed inline_pool]. rewrite map_map. cbn [fst].
    rewrite map_id. apply Permutation_refl.
  - intros r o Hin. cbn [as_completed inline_pool] in Hin.
    apply in_map_iff in Hin as [r' [Heq _]]. injection Heq as <- <-.
    now exists new_World.
Defined.

(** * Further properties of the code *)

(** ** Price texts *)

Lemma re_sub_app (s1 s2 : string) :
  re_sub_non_digit_dot (s1 ++ s2)
  = re_sub_non_digit_dot s1 ++ re_sub_non_digit_dot s2.
Proof.
  induction s1 as [|c r IH]; [reflexivity|].
  cbn [append re_sub_non_digit_dot].
  destruct (not_digit_or_dot c); cbn [append]; now rewrite IH.
Qed.

(** X1: a character that is neither a digit nor a point changes no
    price, wherever it stands in the text: currency signs, blanks,
    thousands separators and letters are all ignored. *)
Theorem parse_price_ignores_noise (s1 s2 : string) (c : ascii) :
  not_digit_or_dot c = true ->
  parse_price (s1 ++ String c s2) = parse_price (s1 ++ s2).
Proof.
  intros Hc. unfold parse_price. rewrite !re_sub_app.
  cbn [re_sub_non_digit_dot]. now rewrite Hc.
Qed.

Lemma parse_price_ignores_noise_witness :
  not_digit_or_dot "," = true /\
  parse_price ("R1" ++ String "," "299.99") = parse_price ("R1" ++ "299.99").
Proof.
  split; [reflexivity|].
  exact (@parse_price_ignores_noise "R1" "299.99" "," eq_refl).
Defined.

Lemma count_in_re_sub_digit (s : string) :
  count_in is_digit (re_sub_non_digit_dot s) = count_in is_digit s.
Proof.
  induction s as [|c r IH]; [reflexivity|].
  cbn [re_sub_non_digit_dot count_in]. unfold not_digit_or_dot.
  destruct (is_digit c) eqn:Hd; cbn [orb negb count_in].
  - now rewrite Hd, IH.
  - destruct (is_dot c); cbn [negb count_in]; now rewrite ?Hd, IH.
Qed.

Lemma count_in_re_sub_dot (s : string) :
  count_in is_dot (re_sub_non_digit_dot s) = count_in is_dot s.
Proof.
  induction s as [|c r IH]; [reflexivity|].
  cbn [re_sub_non_digit_dot count_in]. unfold not_digit_or_dot.
  destruct (is_dot c) eqn:Hd; cbn [orb negb count_in].
  - rewrite orb_true_r. cbn [negb count_in]. now rewrite Hd, IH.
  - rewrite orb_false_r.
    destruct (is_digit c); cbn [negb count_in]; now rewrite ?Hd, IH.
Qed.

Lemma re_sub_only (s : string) : only digit_or_dot (re_sub_non_digit_dot s).
Proof.
  induction s as [|c r IH]; [exact I|].
  cbn [re_sub_non_digit_dot]. unfold not_digit_or_dot.
  destruct (is_digit c || is_dot c) eqn:Hk; cbn [negb]; [|exact IH].
  split; [exact Hk|exact IH].
Qed.

Lemma digit_not_dot (c : ascii) : is_digit c = true -> is_dot c = false.
Proof.
  unfold is_digit, is_dot. intros H.
  destruct (Ascii.eqb c ".") eqn:E; [|reflexivity].
  apply Ascii.eqb_eq in E; subst c. discriminate H.
Qed.

Lemma digits_onto_only (u : string) :
  only is_digit u -> forall acc, exists m, digits_onto acc u = Some m.
Proof.
  induction u as [|c r IH]; intros H acc; cbn [digits_onto].
  - eauto.
  - destruct H as [Hc Hr]. rewrite Hc. now apply IH.
Qed.

Lemma only_digit_counts (u : string) :
  only is_digit u ->
  count_in is_digit u = String.length u /\ count_in is_dot u = 0.
Proof.
  induction u as [|c r IH]; intros H; [split; reflexivity|].
  destruct H as [Hc Hr]. destruct (IH Hr) as [Hd Hp].
  cbn [count_in String.length]. rewrite Hc, (digit_not_dot c Hc), Hd, Hp.
  split; reflexivity.
Qed.

(** On a text of digits and points, the digits can be read through
    exactly when there is no point. *)
Lemma digits_onto_clean (f : string) :
  only digit_or_dot f ->
  forall acc,
    (count_in is_dot f = 0 ->
     (exists m, digits_onto acc f = Some m) /\
     count_in is_digit f = String.length f) /\
    (count_in is_dot f <> 0 -> digits_onto acc f = None).
Proof.
  induction f as [|c r IH]; intros H acc.
  - split; [intros _; split; [cbn; eauto|reflexivity]|intros H0; now destruct H0].
  - destruct H as [Hc Hr]. unfold digit_or_dot in Hc.
    cbn [count_in digits_onto String.length].
    destruct (is_digit c) eqn:Hd.
    + rewrite (digit_not_dot c Hd). cbn [Nat.add].
      destruct (IH Hr (10 * acc + digit_value c)%Z) as [H0 H1].
      split.
      * intros Hz. destruct (H0 Hz) as [Hm Hl]. split; [exact Hm|].
        now rewrite Hl.
      * exact H1.
    + cbn [orb] in Hc. rewrite Hc. split.
      * intros Hz. discriminate Hz.
      * reflexivity.
Qed.

Lemma split_dot_clean (t : string) :
  only digit_or_dot t ->
  only is_digit (fst (split_dot t)) /\
  match snd (split_dot t) with
  | None =>
      count_in is_dot t = 0 /\
      count_in is_digit t = String.length (fst (split_dot t))
  | Some f =>
      only digit_or_dot f /\
      count_in is_dot t = S (count_in is_dot f) /\
      count_in is_digit t
      = String.length (fst (split_dot t)) + count_in is_digit f
  end.
Proof.
  induction t as [|c r IH]; intros H.
  - cbn. repeat split.
  - destruct H as [Hc Hr]. unfold digit_or_dot in Hc.
    cbn [split_dot count_in].
    destruct (is_dot c) eqn:Hdot.
    + cbn [fst snd only String.length].
      assert (Hd : is_digit c = false).
      { destruct (is_digit c) eqn:Hd; [|reflexivity].
        now rewrite (digit_not_dot c Hd) in Hdot. }
      rewrite Hd. repeat split. exact Hr.
    + rewrite orb_false_r in Hc. rewrite Hc.
      destruct (IH Hr) as [Hip Hrest].
      destruct (split_dot r) as [a b]. cbn [fst snd] in *.
      split; [split; assumption|].
      destruct b as [f|].
      * destruct Hrest as [Hf [Hdots Hdigits]].
        cbn [String.length]. rewrite Hdots, Hdigits. repeat split.
        exact Hf.
      * destruct Hrest as [Hdots Hdigits].
        cbn [String.length]. rewrite Hdots, Hdigits. repeat split.
Qed.

Lemma float_clean (t : string) :
  only digit_or_dot t ->
  (exists q, float t = Ok q) <->
  (1 <= count_in is_digit t /\ count_in is_dot t <= 1).
Proof.
  intros Ht. destruct (split_dot_clean t Ht) as [Hip Hrest].
  unfold float. destruct (split_dot t) as [ip rest]. cbn [fst snd] in *.
  destruct (digits_onto_only ip Hip 0%Z) as [i Hi]. rewrite Hi.
  destruct rest as [f|].
  - destruct Hrest as [Hf [Hdots Hdigits]].
    destruct (digits_onto_clean f Hf i) as [H0 H1].
    destruct (Nat.eq_dec (count_in is_dot f) 0) as [Hz|Hnz].
    + destruct (H0 Hz) as [[m Hm] Hl]. rewrite Hm.
      rewrite Hdots, Hdigits, Hz, Hl.
      destruct (Nat.eqb (String.length ip + String.length f) 0) eqn:E.
      * apply Nat.eqb_eq in E. split; [intros [q Hq]; discriminate|lia].
      * apply Nat.eqb_neq in E. split; [intros _; lia|eauto].
    + rewrite (H1 Hnz). split; [intros [q Hq]; discriminate|lia].
  - destruct Hrest as [Hdots Hdigits]. cbn [digits_onto].
    rewrite Hdots, Hdigits, Nat.add_0_r.
    destruct (Nat.eqb (String.length ip) 0) eqn:E.
    + apply Nat.eqb_eq in E. split; [intros [q Hq]; discriminate|lia].
    + apply Nat.eqb_neq in E. split; [intros _; lia|eauto].
Qed.

Lemma float_raises_ValueError (t : string) (e : exn) :
  float t = Raise e -> e = ValueError.
Proof.
  unfold float. destruct (split_dot t) as [ip rest].
  destruct (digits_onto 0 ip) as [i|]; [|now intros H; injection H].
  destruct (digits_onto i _) as [m|]; [|now intros H; injection H].
  destruct (Nat.eqb _ 0); [now intros H; injection H|discriminate].
Qed.

(** X2: a price text parses exactly when it holds at least one digit
    and at most one point, whatever else it holds; a text with two
    points, such as "1.299.99", or without a digit is refused, and the
    refusal is always a [ValueError]. *)
Theorem parse_price_accepts (price_text : string) :
  ((exists q, parse_price price_text = Ok q) <->
   (1 <= count_in is_digit price_text /\ count_in is_dot price_text <= 1)) /\
  (forall e, parse_price price_text = Raise e -> e = ValueError).
Proof.
  split.
  - unfold parse_price.
    rewrite (float_clean _ (re_sub_only price_text)).
    now rewrite count_in_re_sub_digit, count_in_re_sub_dot.
  - intros e. apply float_raises_ValueError.
Qed.

(** ** Extraction of a page *)

(** X3: [_extract_products] raises nothing and writes no file.  It
    makes at most one driver call, the query for the containers; when
    it cannot make it, for want of a driver or of the
    [product_container] selector, it returns the empty list and logs
    one error. *)
Theorem extract_products_never_raises (B : Browser)
    (self : IntelligentWebCrawler) (retailer_key : string)
    (config : RetailerConfig) (w : World) :
  exists found w',
    _extract_products B self retailer_key config w = (Ok found, w') /\
    files w' = files w /\
    ((calls w' = calls w /\ found = [] /\
      exists e, logs w' = (logs w ++ [(ERROR, ExtractionError retailer_key e)])%list)
     \/
     (exists d selector,
        driver self = Some d /\
        dict_get (selectors config) "product_container" = Some selector /\
        calls w' = (calls w ++ [FindElements selector])%list)).
Proof.
  rewrite _extract_products_run.
  destruct (driver self) as [d|].
  - destruct (dict_get (selectors config) "product_container") as [sel|].
    + destruct (on_find_elements B (calls w) sel) as [cs|e];
        eexists _, _; (split; [reflexivity|]); (split; [reflexivity|]);
        right; exists d, sel; repeat split.
    + eexists _, _. split; [reflexivity|]. split; [reflexivity|].
      left. repeat split. eexists. reflexivity.
  - eexists _, _. split; [reflexivity|]. split; [reflexivity|].
    left. repeat split. eexists. reflexivity.
Qed.

Lemma built_plus_skipped (retailer_key : string) (config : RetailerConfig)
    (cs : list WebElement) :
  length (built_from retailer_key config cs)
  + length (skipped_warnings retailer_key config cs) = length cs.
Proof.
  induction cs as [|c cs IH]; [reflexivity|].
  unfold built_from, skipped_warnings in *. cbn [flat_map length].
  destruct (extract_element retailer_key config c);
    rewrite !length_app; cbn [length]; lia.
Qed.

Lemma skipped_warnings_level (retailer_key : string) (config : RetailerConfig)
    (cs : list WebElement) :
  Forall (fun record => fst record = WARNING)
    (skipped_warnings retailer_key config cs).
Proof.
  unfold skipped_warnings. apply Forall_flat_map.
  apply Forall_forall. intros c _.
  destruct (extract_element retailer_key config c); repeat constructor.
Qed.

(** X4: every container the driver hands over is accounted for: it
    either gives a Product or costs one warning, so the products and
    the warnings of a page add up to its containers. *)
Theorem extract_products_accounts (B : Browser)
    (self : IntelligentWebCrawler) (d : WebDriver) (retailer_key : string)
    (config : RetailerConfig) (selector : string)
    (containers : list WebElement) (w : World) :
  driver self = Some d ->
  dict_get (selectors config) "product_container" = Some selector ->
  on_find_elements B (calls w) selector = Ok containers ->
  exists found warnings w',
    _extract_products B self retailer_key config w = (Ok found, w') /\
    logs w' = (logs w ++ warnings)%list /\
    Forall (fun record => fst record = WARNING) warnings /\
    length found + length warnings = length containers.
Proof.
  intros Hd Hsel Hfind.
  rewrite _extract_products_run, Hd, Hsel, Hfind.
  eexists _, _, _. split; [reflexivity|]. split; [reflexivity|].
  split; [apply skipped_warnings_level|apply built_plus_skipped].
Qed.

Lemma extract_products_accounts_witness :
  on_find_elements (one_page [milk; nameless; sold_out; soap])
    (calls new_World) ".product-item"
  = Ok [milk; nameless; sold_out; soap] /\
  exists found warnings w',
    _extract_products (one_page [milk; nameless; sold_out; soap]) a_crawler
      "pick_n_pay" pnp_config new_World = (Ok found, w') /\
    logs w' = (logs new_World ++ warnings)%list /\
    Forall (fun record => fst record = WARNING) warnings /\
    length found + length warnings = length [milk; nameless; sold_out; soap].
Proof.
  split; [reflexivity|].
  exact (@extract_products_accounts
           (one_page [milk; nameless; sold_out; soap]) a_crawler
           (Chrome true) "pick_n_pay" pnp_config ".product-item"
           [milk; nameless; sold_out; soap] new_World
           eq_refl eq_refl eq_refl).
Defined.

(** X5: a configuration whose selectors lack the name or the price
    builds no Product at all: every element is passed over, with a
    [KeyError] unless reading its name had already failed, so the page
    yields the empty list and nothing is raised. *)
Theorem missing_selector_builds_nothing (B : Browser)
    (self : IntelligentWebCrawler) (retailer_key : string)
    (config : RetailerConfig) (w : World) :
  dict_get (selectors config) "name" = None \/
  dict_get (selectors config) "price" = None ->
  (forall c, exists key,
     extract_element retailer_key config c = Raise (KeyError key)
     \/ exists e, read_name config c = Raise e /\
                  extract_element retailer_key config c = Raise e) /\
  exists w', _extract_products B self retailer_key config w = (Ok [], w').
Proof.
  intros Hmiss.
  assert (Hel : forall c, exists key,
     extract_element retailer_key config c = Raise (KeyError key)
     \/ exists e, read_name config c = Raise e /\
                  extract_element retailer_key config c = Raise e).
  { intros c. unfold extract_element.
    destruct Hmiss as [Hn|Hp].
    - exists "name". left. unfold read_name, dict_getitem. now rewrite Hn.
    - destruct (read_name config c) as [n|e] eqn:Hname.
      + exists "price". left. cbn [and_then].
        unfold read_price, dict_getitem. now rewrite Hp.
      + exists "name". right. exists e. split; reflexivity. }
  split; [exact Hel|].
  destruct (_extract_products_shape B self retailer_key config w)
    as [cs [hs [ls [Hrun _]]]].
  assert (Hb : built_from retailer_key config cs = []).
  { clear Hrun. unfold built_from.
    induction cs as [|c cs IH]; [reflexivity|].
    cbn [flat_map]. rewrite IH.
    destruct (Hel c) as [key [H|[e [_ H]]]]; now rewrite H. }
  rewrite Hrun, Hb. eexists. reflexivity.
Qed.

Lemma missing_selector_builds_nothing_witness :
  (dict_get (selectors config_without_price) "name" = None \/
   dict_get (selectors config_without_price) "price" = None) /\
  exists w',
    _extract_products (one_page [milk; soap]) a_crawler "corner_shop"
      config_without_price new_World = (Ok [], w').
Proof.
  split; [right; reflexivity|].
  exact (proj2 (@missing_selector_builds_nothing (one_page [milk; soap])
                  a_crawler "corner_shop" config_without_price new_World
                  (or_intror eq_refl))).
Defined.

(** ** Visits and crawls *)

Lemma visit_page_Forall (B : Browser) (self : IntelligentWebCrawler)
    (d : WebDriver) (key : string) (cfg : RetailerConfig) (page : string)
    (w w1 : World) (found : list Product) (P : Product -> Prop) :
  (forall c p, extract_element key cfg c = Ok p -> P p) ->
  visit_page B self d key cfg page w = (Ok found, w1) ->
  Forall P found.
Proof.
  intros HP. unfold visit_page, bind, lift. rewrite driver_call_run.
  destruct (returns_or_raises _) as [[]|e]; [|discriminate].
  destruct (wait_selector cfg) as [sel|e]; [|discriminate].
  rewrite driver_call_run.
  destruct (returns_or_raises _) as [[]|e]; [|discriminate].
  match goal with
  | |- context [(if ?b then ?m1 else ?m2) ?w0] =>
      destruct ((if b then m1 else m2) w0) as [[[]|e] w2]
  end; [|discriminate].
  intros H.
  destruct (_extract_products_Forall B self key cfg w2 P HP)
    as [f [w' [Hrun HF]]].
  rewrite Hrun in H. injection H as <- _. exact HF.
Qed.

Lemma page_outcomes_Forall (B : Browser) (self : IntelligentWebCrawler)
    (d : WebDriver) (key : string) (cfg : RetailerConfig)
    (P : Product -> Prop) (pages : list string) :
  (forall c p, extract_element key cfg c = Ok p -> P p) ->
  forall w,
    Forall (fun o => Forall P (products_of o))
      (page_outcomes B self d key cfg pages w).
Proof.
  intros HP. induction pages as [|page rest IH]; intros w; [constructor|].
  cbn [page_outcomes].
  destruct (visit_page B self d key cfg page w) as [r w1] eqn:Hv.
  constructor; [|apply IH].
  destruct r as [found|e]; cbn [products_of]; [|constructor].
  exact (visit_page_Forall B self d key cfg page w P HP Hv).
Qed.

(** X6: [crawl_retailer] raises nothing, for any key, driver or site,
    and writes no file; every Product it returns is filed under the key
    it was called with and has a price that is not negative. *)
Theorem crawl_retailer_tags (B : Browser) (self : IntelligentWebCrawler)
    (retailer_key : string) (w : World) :
  exists found w',
    crawl_retailer B self retailer_key w = (Ok found, w') /\
    files w' = files w /\
    Forall (fun p => retailer p = retailer_key /\ (0 <= price p)%Q) found.
Proof.
  unfold crawl_retailer.
  destruct (driver self) as [d|].
  2:{ eexists _, _. repeat split. constructor. }
  destruct (dict_get RETAILERS retailer_key) as [cfg|].
  2:{ eexists _, _. repeat split. constructor. }
  destruct (crawl_pages_spec B self d retailer_key cfg (product_pages cfg)
              [] w) as [w' [ls [Hrun [_ [Hfiles _]]]]].
  rewrite Hrun. eexists _, _. split; [reflexivity|]. split; [exact Hfiles|].
  cbn [app]. apply Forall_flat_map. apply page_outcomes_Forall.
  intros c p Hp. apply extract_element_ok in Hp as [_ [Hq Heq]].
  split; [rewrite Heq; reflexivity|].
  destruct (@read_price_parsed cfg c _ Hq) as [t Ht].
  exact (parse_price_nonneg t Ht).
Qed.

(** X7: a page visit that fails has not asked for the containers and
    has logged nothing itself: the driver saw the navigation, then at
    most the wait and the scrolls, and no file was written. *)
Theorem failed_visit_never_queries (B : Browser)
    (self : IntelligentWebCrawler) (d : WebDriver) (retailer_key : string)
    (cfg : RetailerConfig) (page : string) (w w' : World) (e : exn) :
  visit_page B self d retailer_key cfg page w = (Raise e, w') ->
  logs w' = logs w /\ files w' = files w /\
  exists hs,
    calls w' = (calls w ++ Get page :: hs)%list /\
    Forall (fun c => match c with
                     | WaitPresence _ | ExecuteScript _ => True
                     | _ => False
                     end) hs.
Proof.
  unfold visit_page, bind, lift. rewrite driver_call_run.
  destruct (returns_or_raises (on_get B (calls w) page)) as [[]|e0].
  2:{ intros H; injection H as _ <-. repeat split. exists []. now split. }
  destruct (wait_selector cfg) as [sel|e0].
  2:{ intros H; injection H as _ <-. repeat split. exists []. now split. }
  rewrite driver_call_run, called_called.
  destruct (returns_or_raises _) as [[]|e0].
  2:{ intros H; injection H as _ <-. repeat split.
      exists [WaitPresence sel]. split; [reflexivity|]. now repeat constructor. }
  set (w1 := called _ w).
  assert (Hscroll : exists r k,
    (if truthy (dict_get (crawl_strategy cfg) "scroll_pagination")
     then _scroll_page B d 5 else ret tt) w1
    = (r, called (repeat (ExecuteScript scroll_script) k) w1)).
  { destruct (truthy _).
    - apply scroll_loop_shape.
    - exists (Ok tt), 0. unfold ret. now rewrite called_nil. }
  destruct Hscroll as [r [k Hk]]. rewrite Hk. subst w1.
  destruct r as [[]|e0].
  - intros H.
    match type of H with
    | _extract_products B self retailer_key cfg ?w2 = _ =>
        destruct (_extract_products_shape B self retailer_key cfg w2)
          as [cs [hs [ls [Hrun _]]]]
    end.
    rewrite Hrun in H. discriminate H.
  - intros H; injection H as _ <-. repeat split.
    exists (WaitPresence sel :: repeat (ExecuteScript scroll_script) k).
    split.
    + cbn [calls called]. now rewrite <- app_assoc.
    + constructor; [exact I|]. apply Forall_forall. intros c Hc.
      apply repeat_spec in Hc. now subst c.
Qed.

Lemma failed_visit_never_queries_witness :
  visit_page pnp_site_timeout a_crawler (Chrome true) "pick_n_pay" pnp_config
    pnp_groceries new_World
  = (Raise TimeoutException,
     called [Get pnp_groceries; WaitPresence ".product-grid"] new_World) /\
  logs (called [Get pnp_groceries; WaitPresence ".product-grid"] new_World)
  = logs new_World /\
  files (called [Get pnp_groceries; WaitPresence ".product-grid"] new_World)
  = files new_World /\
  exists hs,
    calls (called [Get pnp_groceries; WaitPresence ".product-grid"] new_World)
    = (calls new_World ++ Get pnp_groceries :: hs)%list /\
    Forall (fun c => match c with
                     | WaitPresence _ | ExecuteScript _ => True
                     | _ => False
                     end) hs.
Proof.
  split; [reflexivity|].
  exact (@failed_visit_never_queries pnp_site_timeout a_crawler (Chrome true)
           "pick_n_pay" pnp_config pnp_groceries new_World _
           TimeoutException eq_refl).
Defined.

Lemma scroll_loop_stops (B : Browser) (e : exn) (k : nat) :
  forall n w,
    k < n ->
    (forall j, j < k ->
       on_script B (calls w ++ repeat (ExecuteScript scroll_script) j)
         scroll_script = None) ->
    on_script B (calls w ++ repeat (ExecuteScript scroll_script) k)
      scroll_script = Some e ->
    scroll_loop B n w
    = (Raise e, called (repeat (ExecuteScript scroll_script) (S k)) w).
Proof.
  induction k as [|k IH]; intros n w Hlt Hok Hfail.
  - destruct n as [|n]; [lia|].
    cbn [scroll_loop]. unfold bind. rewrite driver_call_run.
    cbn [repeat] in Hfail. rewrite app_nil_r in Hfail. now rewrite Hfail.
  - destruct n as [|n]; [lia|].
    cbn [scroll_loop]. unfold bind. rewrite driver_call_run.
    pose proof (Hok 0 (Nat.lt_0_succ k)) as H0.
    cbn [repeat] in H0. rewrite app_nil_r in H0. rewrite H0.
    cbn [returns_or_raises].
    rewrite (IH n (called [ExecuteScript scroll_script] w)).
    + now rewrite called_called.
    + lia.
    + intros j Hj. cbn [calls called]. rewrite <- app_assoc.
      apply (Hok (S j)). lia.
    + cbn [calls called]. rewrite <- app_assoc. exact Hfail.
Qed.

(** X8: [_scroll_page] stops at the first scroll that raises: when the
    script goes through [k] times and raises on the next run, with [k]
    below [max_scrolls], exactly [k + 1] scripts are run and the
    exception leaves the function. *)
Theorem scroll_page_stops_at_failure (B : Browser) (d : WebDriver)
    (max_scrolls : Z) (k : nat) (e : exn) (w : World) :
  (Z.of_nat k < max_scrolls)%Z ->
  (forall j, j < k ->
     on_script B (calls w ++ repeat (ExecuteScript scroll_script) j)
       scroll_script = None) ->
  on_script B (calls w ++ repeat (ExecuteScript scroll_script) k)
    scroll_script = Some e ->
  _scroll_page B d max_scrolls w
  = (Raise e, called (repeat (ExecuteScript scroll_script) (S k)) w).
Proof.
  intros Hlt Hok Hfail. unfold _scroll_page.
  apply scroll_loop_stops; [lia|exact Hok|exact Hfail].
Qed.

Lemma scroll_page_stops_at_failure_witness :
  (Z.of_nat 2 < 5)%Z /\
  _scroll_page (flaky_scroll 2) (Chrome true) 5 new_World
  = (Raise WebDriverException,
     called (repeat (ExecuteScript scroll_script) 3) new_World).
Proof.
  split; [reflexivity|].
  apply (@scroll_page_stops_at_failure (flaky_scroll 2) (Chrome true) 5 2
           WebDriverException new_World).
  - reflexivity.
  - intros j Hj.
    destruct j as [|[|j]]; [reflexivity|reflexivity|].
    exfalso. apply (Nat.nlt_0_r j). apply Nat.succ_lt_mono.
    apply Nat.succ_lt_mono. exact Hj.
  - reflexivity.
Defined.

(** ** The log of a crawl *)

Lemma skipped_warnings_quiet (retailer_key : string) (config : RetailerConfig)
    (cs : list WebElement) :
  filter is_page_record (skipped_warnings retailer_key config cs) = [].
Proof.
  induction cs as [|c cs IH]; [reflexivity|].
  unfold skipped_warnings in *. cbn [flat_map]. rewrite filter_app, IH.
  now destruct (extract_element retailer_key config c).
Qed.

Lemma _extract_products_quiet (B : Browser) (self : IntelligentWebCrawler)
    (key : string) (config : RetailerConfig) (w : World) :
  exists found hs ls,
    _extract_products B self key config w
    = (Ok found, logged ls (called hs w)) /\
    filter is_page_record ls = [].
Proof.
  rewrite _extract_products_run.
  destruct (driver self) as [d|].
  - destruct (dict_get (selectors config) "product_container") as [sel|].
    + destruct (on_find_elements B (calls w) sel) as [cs|e].
      * eexists _, _, _. split; [reflexivity|]. apply skipped_warnings_quiet.
      * eexists _, _, _. split; [reflexivity|]. reflexivity.
    + eexists _, [], _. rewrite called_nil. split; reflexivity.
  - eexists _, [], _. rewrite called_nil. split; reflexivity.
Qed.

Lemma visit_page_quiet (B : Browser) (self : IntelligentWebCrawler)
    (d : WebDriver) (key : string) (cfg : RetailerConfig) (page : string)
    (w : World) :
  exists r hs ls,
    visit_page B self d key cfg page w = (r, logged ls (called hs w)) /\
    filter is_page_record ls = [].
Proof.
  unfold visit_page, bind, lift. rewrite driver_call_run.
  destruct (returns_or_raises (on_get B (calls w) page)) as [[]|e].
  2:{ exists (Raise e), [Get page], []. now rewrite logged_nil. }
  destruct (wait_selector cfg) as [sel|e].
  2:{ exists (Raise e), [Get page], []. now rewrite logged_nil. }
  rewrite driver_call_run, called_called.
  destruct (returns_or_raises _) as [[]|e].
  2:{ eexists (Raise e), _, []. now rewrite logged_nil. }
  set (w1 := called _ w).
  assert (Hscroll : exists r k,
    (if truthy (dict_get (crawl_strategy cfg) "scroll_pagination")
     then _scroll_page B d 5 else ret tt) w1
    = (r, called (repeat (ExecuteScript scroll_script) k) w1)).
  { destruct (truthy _).
    - apply scroll_loop_shape.
    - exists (Ok tt), 0. unfold ret. now rewrite called_nil. }
  destruct Hscroll as [r [k Hk]]. rewrite Hk. subst w1.
  rewrite called_called.
  destruct r as [[]|e].
  2:{ eexists (Raise e), _, []. now rewrite logged_nil. }
  match goal with
  | |- context [_extract_products B self key cfg ?w2] =>
      destruct (_extract_products_quiet B self key cfg w2)
        as [found [hs [ls [Hrun Hq]]]]
  end.
  rewrite Hrun, called_called. eexists _, _, ls. split; [reflexivity|exact Hq].
Qed.

Lemma crawl_pages_records (B : Browser) (self : IntelligentWebCrawler)
    (d : WebDriver) (key : string) (cfg : RetailerConfig)
    (pages : list string) :
  forall acc w, exists found w' ls,
    crawl_pages B self d key cfg pages acc w = (Ok found, w') /\
    logs w' = (logs w ++ ls)%list /\
    filter is_page_record ls
    = map (fun po => page_record key (fst po) (snd po))
        (combine pages (page_outcomes B self d key cfg pages w)).
Proof.
  induction pages as [|page rest IH]; intros acc w.
  - exists acc, w, []. cbn. unfold ret. now rewrite app_nil_r.
  - cbn [crawl_pages page_outcomes]. unfold bind, try_except.
    destruct (visit_page_quiet B self d key cfg page w)
      as [r [hs [ls [Hv Hq]]]].
    rewrite Hv.
    destruct r as [got|e]; rewrite logging_run; unfold ret;
      cbn [page_record].
    + destruct (IH (acc ++ got)%list
                  (logged [(INFO, Crawled key (length got) page)]
                     (logged ls (called hs w))))
        as [found [w' [ls' [Hrun [Hlogs Hrec]]]]].
      exists found, w',
        (ls ++ [(INFO, Crawled key (length got) page)] ++ ls')%list.
      rewrite Hrun. split; [reflexivity|]. split.
      { rewrite Hlogs. cbn [logs logged called]. now rewrite <- !app_assoc. }
      rewrite !filter_app, Hq, Hrec. reflexivity.
    + destruct (IH acc
                  (logged [(ERROR, PageError key page e)]
                     (logged ls (called hs w))))
        as [found [w' [ls' [Hrun [Hlogs Hrec]]]]].
      exists found, w',
        (ls ++ [(ERROR, PageError key page e)] ++ ls')%list.
      rewrite Hrun. split; [reflexivity|]. split.
      { rewrite Hlogs. cbn [logs logged called]. now rewrite <- !app_assoc. }
      rewrite !filter_app, Hq, Hrec. reflexivity.
Qed.

(** X9: a crawl of a registered retailer logs exactly one record of its
    own for each configured page, in page order: an INFO record with the
    number of products of that page when the page went through, an
    ERROR record with the exception when it did not. *)
Theorem one_record_per_page (B : Browser) (self : IntelligentWebCrawler)
    (d : WebDriver) (retailer_key : string) (cfg : RetailerConfig)
    (w : World) :
  driver self = Some d ->
  dict_get RETAILERS retailer_key = Some cfg ->
  exists found w' ls,
    crawl_retailer B self retailer_key w = (Ok found, w') /\
    logs w' = (logs w ++ ls)%list /\
    filter is_page_record ls
    = map (fun po => page_record retailer_key (fst po) (snd po))
        (combine (product_pages cfg)
           (page_outcomes B self d retailer_key cfg (product_pages cfg) w)) /\
    length (filter is_page_record ls) = length (product_pages cfg).
Proof.
  intros Hd Hcfg. unfold crawl_retailer. rewrite Hd, Hcfg.
  destruct (crawl_pages_records B self d retailer_key cfg (product_pages cfg)
              [] w) as [found [w' [ls [Hrun [Hlogs Hrec]]]]].
  exists found, w', ls. repeat split; try assumption.
  rewrite Hrec, length_map, length_combine, page_outcomes_length.
  apply Nat.min_id.
Qed.

Lemma one_record_per_page_witness :
  dict_get RETAILERS "pick_n_pay" = Some pnp_config /\
  exists found w' ls,
    crawl_retailer pnp_site_timeout a_crawler "pick_n_pay" new_World
    = (Ok found, w') /\
    logs w' = (logs new_World ++ ls)%list /\
    filter is_page_record ls
    = map (fun po => page_record "pick_n_pay" (fst po) (snd po))
        (combine (product_pages pnp_config)
           (page_outcomes pnp_site_timeout a_crawler (Chrome true)
              "pick_n_pay" pnp_config (product_pages pnp_config)
              new_World)) /\
    length (filter is_page_record ls) = length (product_pages pnp_config).
Proof.
  split; [reflexivity|].
  exact (@one_record_per_page pnp_site_timeout a_crawler (Chrome true)
           "pick_n_pay" pnp_config new_World eq_refl eq_refl).
Defined.

(** ** The result of a cycle *)

Lemma successes_filter (completed : list (string * Result (list Product))) :
  successes completed = map fst (filter returned_products completed).
Proof.
  induction completed as [|[r o] rest IH]; [reflexivity|].
  unfold successes in *. cbn [flat_map filter fst snd].
  unfold returned_products at 1. cbn [snd].
  destruct o as [[|p ps]|e]; cbn [app map fst]; now rewrite IH.
Qed.

(** X10: a crawl cycle appends to [successful_retailers] the retailer
    of every unit that returned at least one product, in completion
    order, and nothing else; the driver and the [products] attribute of
    the crawler stay as they were. *)
Theorem successful_retailers_appended (B : Browser)
    (pool : ThreadPoolExecutor) (self : IntelligentWebCrawler)
    (retailers : option (list string)) (w : World) :
  (forall f, on_to_csv B f = None) ->
  exists all self' w',
    parallel_crawl B pool self retailers w = (Ok (all, self'), w') /\
    driver self' = driver self /\
    products self' = products self /\
    successful_retailers self'
    = (successful_retailers self
       ++ map fst (filter returned_products
                     (as_completed pool (submitted retailers))))%list.
Proof.
  intros Hcsv.
  destruct (parallel_crawl_run B pool self retailers w Hcsv)
    as [all [Hrun _]].
  eexists all, _, _. split; [exact Hrun|].
  cbn [driver products successful_retailers].
  now rewrite successes_filter.
Qed.

Lemma successful_retailers_appended_witness :
  on_to_csv pnp_site "pick_n_pay_products.csv" = None /\
  exists all self' w',
    parallel_crawl pnp_site (pool_with_crash "checkers" RuntimeError)
      a_crawler None new_World = (Ok (all, self'), w') /\
    driver self' = driver a_crawler /\
    products self' = products a_crawler /\
    successful_retailers self'
    = (successful_retailers a_crawler
       ++ map fst (filter returned_products
                     (as_completed (pool_with_crash "checkers" RuntimeError)
                        (submitted None))))%list.
Proof.
  split; [reflexivity|].
  exact (@successful_retailers_appended pnp_site
           (pool_with_crash "checkers" RuntimeError) a_crawler None new_World
           (fun _ => eq_refl)).
Defined.

Lemma dict_keys_set {V} (d : dict V) (k : string) (v : V) (k' : string) :
  In k' (dict_keys (dict_set d k v)) <-> k' = k \/ In k' (dict_keys d).
Proof.
  induction d as [|[k0 v0] d IH]; cbn [dict_set].
  - cbn. intuition.
  - destruct (String.eqb k k0) eqn:Hk.
    + apply String.eqb_eq in Hk; subst k0. cbn. intuition.
    + cbn [dict_keys map fst In] in *. rewrite IH. intuition.
Qed.

Lemma dict_set_NoDup {V} (d : dict V) (k : string) (v : V) :
  NoDup (dict_keys d) -> NoDup (dict_keys (dict_set d k v)).
Proof.
  induction d as [|[k0 v0] d IH]; intros H; cbn [dict_set].
  - cbn. constructor; [intros []|constructor].
  - destruct (String.eqb k k0) eqn:Hk; [exact H|].
    cbn [dict_keys map fst] in *. inversion H as [|? ? Hnotin Hnodup]; subst.
    constructor; [|now apply IH].
    intros Hin. apply (dict_keys_set d k v k0) in Hin as [Heq|Hin].
    + subst k0. now rewrite String.eqb_refl in Hk.
    + now apply Hnotin.
Qed.

Lemma dict_get_keys {V} (d : dict V) (k : string) :
  In k (dict_keys d) <-> exists v, dict_get d k = Some v.
Proof.
  induction d as [|[k0 v0] d IH]; cbn [dict_keys map fst In dict_get].
  - split; [intros []|intros [v Hv]; discriminate].
  - destruct (String.eqb k k0) eqn:Hk.
    + apply String.eqb_eq in Hk; subst k0. split; eauto.
    + apply String.eqb_neq in Hk. fold (dict_keys d). rewrite <- IH.
      split; [intros [Heq|Hin]; [now subst|exact Hin]|now right].
Qed.

Lemma collect_NoDup (completed : list (string * Result (list Product))) :
  forall all self w all' self' w',
    collect completed all self w = (Ok (all', self'), w') ->
    NoDup (dict_keys all) -> NoDup (dict_keys all').
Proof.
  induction completed as [|[r o] rest IH]; intros all self w all' self' w'.
  - cbn. unfold ret. intros H; injection H as <- _ _. auto.
  - cbn [collect]. destruct o as [found|e].
    + intros H Hnd. eapply IH; [exact H|]. now apply dict_set_NoDup.
    + unfold bind. rewrite logging_run. intros H Hnd.
      eapply IH; [exact H|exact Hnd].
Qed.

(** X11: when the CSV files can be written, the dictionary a cycle
    returns has one entry for each retailer of which a unit returned
    and none for any other, also when a retailer was submitted more
    than once; one file is written for each entry, in the order of the
    dictionary, named after the retailer. *)
Theorem one_entry_per_retailer (B : Browser) (pool : ThreadPoolExecutor)
    (self : IntelligentWebCrawler) (retailers : option (list string))
    (w : World) :
  (forall f, on_to_csv B f = None) ->
  exists all self' w',
    parallel_crawl B pool self retailers w = (Ok (all, self'), w') /\
    NoDup (dict_keys all) /\
    (forall r, In r (dict_keys all) <->
               exists found,
                 In (r, Ok found) (as_completed pool (submitted retailers))) /\
    files w'
    = (files w
       ++ map (fun entry => ((fst entry ++ "_products.csv")%string, snd entry))
            all)%list.
Proof.
  intros Hcsv. unfold parallel_crawl, bind. fold (submitted retailers).
  set (completed := as_completed pool (submitted retailers)).
  destruct (collect_run completed [] self w)
    as [all [self' [Hrun [_ Hget]]]].
  pose proof (collect_NoDup completed [] self w Hrun (NoDup_nil _)) as Hnd.
  rewrite Hrun. cbn [fst]. rewrite (_save_to_csv_ok B all Hcsv). unfold ret.
  eexists all, _, _. split; [reflexivity|]. split; [exact Hnd|].
  split; [|reflexivity].
  intros r. rewrite dict_get_keys, Hget. cbn [dict_get]. split.
  - intros [v Hv]. destruct (last_returned completed r) as [f|] eqn:Hl;
      [|discriminate]. exists f. now apply last_returned_In.
  - intros [found Hin].
    destruct (last_returned_some completed r found Hin) as [f Hf].
    rewrite Hf. eauto.
Qed.

Lemma one_entry_per_retailer_witness :
  on_to_csv pnp_site "pick_n_pay_products.csv" = None /\
  exists all self' w',
    parallel_crawl pnp_site (reversing_pool [])
      a_crawler (Some ["checkers"; "woolworths"; "checkers"]) new_World
    = (Ok (all, self'), w') /\
    NoDup (dict_keys all) /\
    (forall r, In r (dict_keys all) <->
               exists found,
                 In (r, Ok found)
                    (as_completed (reversing_pool [])
                       (submitted (Some ["checkers"; "woolworths";
                                         "checkers"])))) /\
    files w'
    = (files new_World
       ++ map (fun entry => ((fst entry ++ "_products.csv")%string, snd entry))
            all)%list.
Proof.
  split; [reflexivity|].
  exact (@one_entry_per_retailer pnp_site (reversing_pool []) a_crawler
           (Some ["checkers"; "woolworths"; "checkers"]) new_World
           (fun _ => eq_refl)).
Defined.

(** ** Files that cannot be written *)

(** X12: [_save_to_csv] has no handler: the first file that cannot be
    written ends it with that exception; the files of the entries
    before it are written and logged, those of the entries after it are
    not attempted. *)
Theorem save_to_csv_stops_at_failure (B : Browser)
    (before after : dict (list Product)) (retailer_key : string)
    (found : list Product) (e : exn) (w : World) :
  (forall entry, In entry before ->
                 on_to_csv B (fst entry ++ "_products.csv") = None) ->
  on_to_csv B (retailer_key ++ "_products.csv") = Some e ->
  _save_to_csv B (before ++ (retailer_key, found) :: after)%list w
  = (Raise e,
     {| calls := calls w; logs := (logs w ++ csv_records before)%list;
        files := (files w ++ csv_files before)%list |}).
Proof.
  intros Hok Hfail. revert w.
  induction before as [|[r0 f0] before IH]; intros w.
  - cbn [app _save_to_csv]. unfold bind. rewrite Hfail.
    cbn [csv_records csv_files map]. now rewrite !app_nil_r, world_eta.
  - cbn [app _save_to_csv]. unfold bind.
    pose proof (Hok (r0, f0) (or_introl eq_refl)) as H0. cbn [fst] in H0.
    rewrite H0, logging_run, IH.
    + unfold logged; cbn [calls logs files csv_records csv_files map fst snd].
      now rewrite <- !app_assoc.
    + intros entry Hin. apply Hok. now right.
Qed.

Lemma save_to_csv_stops_at_failure_witness :
  on_to_csv picky_disk ("checkers" ++ "_products.csv") = Some OSError /\
  _save_to_csv picky_disk
    ([("pick_n_pay", [])] ++ ("checkers", []) :: [("woolworths", [])])%list
    new_World
  = (Raise OSError,
     {| calls := calls new_World;
        logs := (logs new_World ++ csv_records [("pick_n_pay", [])])%list;
        files := (files new_World ++ csv_files [("pick_n_pay", [])])%list |}).
Proof.
  split; [reflexivity|].
  apply (@save_to_csv_stops_at_failure picky_disk [("pick_n_pay", [])]
           [("woolworths", [])] "checkers" [] OSError new_World).
  - intros entry [<-|[]]. reflexivity.
  - reflexivity.
Defined.

Lemma _save_to_csv_raises (B : Browser) (d : dict (list Product))
    (r : string) (e : exn) :
  In r (dict_keys d) ->
  on_to_csv B (r ++ "_products.csv") = Some e ->
  forall w, exists e' w',
    _save_to_csv B d w = (Raise e', w') /\ calls w' = calls w.
Proof.
  intros Hin Hfail. induction d as [|[r0 f0] d IH]; [destruct Hin|].
  intros w. cbn [_save_to_csv]. unfold bind.
  destruct (on_to_csv B (r0 ++ "_products.csv")) as [e0|] eqn:H0.
  - exists e0, w. split; reflexivity.
  - rewrite logging_run.
    destruct Hin as [Heq|Hin].
    + cbn [fst] in Heq. subst r0. rewrite Hfail in H0. discriminate H0.
    + match goal with
      | |- context [_save_to_csv B d ?w1] =>
          destruct (IH Hin w1) as [e' [w' [Hrun Hcalls]]]
      end.
      rewrite Hrun. exists e', w'. split; [reflexivity|exact Hcalls].
Qed.

(** X13: [parallel_crawl] saves before it returns and has no handler
    around the saving: when the file of a retailer one of whose units
    returned cannot be written, the call raises and the collected
    result dictionary is not returned. *)
Theorem csv_failure_loses_result (B : Browser) (pool : ThreadPoolExecutor)
    (self : IntelligentWebCrawler) (retailers : option (list string))
    (w : World) (retailer_key : string) (found : list Product) (e : exn) :
  In (retailer_key, Ok found) (as_completed pool (submitted retailers)) ->
  on_to_csv B (retailer_key ++ "_products.csv") = Some e ->
  exists e' w',
    parallel_crawl B pool self retailers w = (Raise e', w') /\
    calls w' = calls w.
Proof.
  intros Hin Hfail. unfold parallel_crawl, bind. fold (submitted retailers).
  set (completed := as_completed pool (submitted retailers)) in *.
  destruct (collect_run completed [] self w)
    as [all [self' [Hrun [_ Hget]]]].
  rewrite Hrun. cbn [fst].
  assert (Hkey : In retailer_key (dict_keys all)).
  { apply dict_get_keys. rewrite Hget.
    destruct (last_returned_some completed retailer_key found Hin)
      as [f Hf]. rewrite Hf. eauto. }
  destruct (_save_to_csv_raises B all retailer_key Hkey Hfail
              (logged (crash_records completed) w))
    as [e' [w' [Hsave Hcalls]]].
  rewrite Hsave. exists e', w'. split; [reflexivity|exact Hcalls].
Qed.

Lemma csv_failure_loses_result_witness :
  In ("pick_n_pay", Ok [new_Product "Bath Soap" 34.99%Q "pick_n_pay"])
     (as_completed (pool_with_crash "checkers" RuntimeError)
        (submitted None)) /\
  on_to_csv read_only_disk ("pick_n_pay" ++ "_products.csv") = Some OSError /\
  exists e' w',
    parallel_crawl read_only_disk (pool_with_crash "checkers" RuntimeError)
      a_crawler None new_World = (Raise e', w') /\
    calls w' = calls new_World.
Proof.
  split; [left; reflexivity|]. split; [reflexivity|].
  exact (@csv_failure_loses_result read_only_disk
           (pool_with_crash "checkers" RuntimeError) a_crawler None new_World
           "pick_n_pay" [new_Product "Bath Soap" 34.99%Q "pick_n_pay"]
           OSError (or_introl eq_refl) eq_refl).
Defined.

(** ** The program *)

Lemma dict_set_fresh {V} (d : dict V) (k : string) (v : V) :
  ~ In k (dict_keys d) -> dict_set d k v = (d ++ [(k, v)])%list.
Proof.
  induction d as [|[k0 v0] d IH]; intros Hk; [reflexivity|].
  cbn [dict_set app]. cbn [dict_keys map fst In] in Hk.
  destruct (String.eqb k k0) eqn:E.
  - apply String.eqb_eq in E. subst k0. exfalso. apply Hk. now left.
  - rewrite IH; [reflexivity|]. intros Hin. apply Hk. now right.
Qed.

Lemma collect_all_empty (completed : list (string * Result (list Product))) :
  (forall r o, In (r, o) completed -> o = Ok []) ->
  forall all self w,
    NoDup (dict_keys all ++ map fst completed) ->
    collect completed all self w
    = (Ok ((all ++ map (fun c => (fst c, [])) completed)%list, self), w).
Proof.
  induction completed as [|[r o] rest IH]; intros Hempty all self w Hnd.
  - cbn. unfold ret. now rewrite app_nil_r.
  - rewrite (Hempty r o (or_introl eq_refl)). cbn [collect].
    cbn [map fst] in Hnd.
    assert (Hfresh : ~ In r (dict_keys all)).
    { intros Hin. apply NoDup_remove_2 in Hnd. apply Hnd.
      apply in_or_app. now left. }
    rewrite (dict_set_fresh all r [] Hfresh).
    rewrite IH.
    + cbn [map fst]. now rewrite <- app_assoc.
    + intros r' o' Hin. apply (Hempty r' o'). now right.
    + unfold dict_keys in *. rewrite map_app. cbn [map fst].
      rewrite <- app_assoc. cbn [app].
      apply NoDup_remove_1 in Hnd as Hnd1.
      apply NoDup_remove_2 in Hnd as Hnd2.
      apply (Permutation_NoDup (l := r :: map fst all ++ map fst rest)).
      * apply Permutation_middle.
      * constructor; assumption.
Qed.

(** X14: the program survives a machine without Chrome: when the
    backend cannot start, the files can be written and the pool runs
    [crawl_retailer] once for each registered retailer, [main] raises
    nothing, makes no driver call and prints one line for each of the
    three retailers, each reporting 0 products. *)
Theorem main_without_chrome (B : Browser)
    (executor : IntelligentWebCrawler -> ThreadPoolExecutor) (e : exn)
    (w : World) :
  on_chrome B true = Some e ->
  (forall f, on_to_csv B f = None) ->
  (forall self,
     Permutation (map fst (as_completed (executor self) (dict_keys RETAILERS)))
       (dict_keys RETAILERS)) ->
  (forall self r o,
     In (r, o) (as_completed (executor self) (dict_keys RETAILERS)) ->
     exists w2, o = fst (crawl_retailer B self r w2)) ->
  exists lines w',
    main B executor w = (Ok lines, w') /\
    Permutation lines
      ["PICK_N_PAY: 0 products found"; "CHECKERS: 0 products found";
       "WOOLWORTHS: 0 products found"] /\
    calls w' = calls w.
Proof.
  intros Hchrome Hcsv Hperm Hunits.
  set (self := {| driver := None; products := [];
                  successful_retailers := [] |}).
  assert (Hinit : __init__ B true w
                  = (Ok self, logged [(ERROR, SetupFailed e)] w)).
  { unfold __init__, _setup_selenium, bind. now rewrite Hchrome. }
  set (completed := as_completed (executor self) (dict_keys RETAILERS)).
  assert (Hempty : forall r o, In (r, o) completed -> o = Ok []).
  { intros r o Hin. destruct (Hunits self r o Hin) as [w2 ->].
    now rewrite crawl_retailer_no_driver. }
  assert (Hnd : NoDup (dict_keys (@nil (string * list Product))
                       ++ map fst completed)).
  { cbn [dict_keys map app].
    apply (Permutation_NoDup (Permutation_sym (Hperm self))).
    repeat constructor; cbn; intuition discriminate. }
  assert (Hcycle : forall w1, exists w',
    parallel_crawl B (executor self) self None w1
    = (Ok (map (fun c => (fst c, [])) completed, self), w') /\
    calls w' = calls w1).
  { intros w1. unfold parallel_crawl, bind. fold (dict_keys RETAILERS).
    fold completed.
    rewrite (collect_all_empty completed Hempty [] self w1 Hnd).
    cbn [app fst]. rewrite (_save_to_csv_ok B _ Hcsv). unfold ret.
    eexists. split; reflexivity. }
  destruct (Hcycle (logged [(ERROR, SetupFailed e)] w))
    as [w' [Hrun Hcalls]].
  unfold main, bind. rewrite Hinit, Hrun. unfold ret. cbn [fst].
  eexists _, w'. split; [reflexivity|]. split; [|exact Hcalls].
  assert (Hlines :
    map (fun entry : string * list Product =>
           summary_line (fst entry) (snd entry))
      (map (fun c : string * Result (list Product) => (fst c, [])) completed)
    = map (fun r => summary_line r []) (map fst completed)).
  { rewrite !map_map. apply map_ext. reflexivity. }
  rewrite Hlines.
  apply (Permutation_map (fun r => summary_line r []) (Hperm self)).
Qed.

Lemma main_without_chrome_witness :
  on_chrome no_chrome true = Some WebDriverException /\
  exists lines w',
    main no_chrome (fun self => inline_pool no_chrome self new_World)
      new_World = (Ok lines, w') /\
    Permutation lines
      ["PICK_N_PAY: 0 products found"; "CHECKERS: 0 products found";
       "WOOLWORTHS: 0 products found"] /\
    calls w' = calls new_World.
Proof.
  split; [reflexivity|].
  apply (@main_without_chrome no_chrome
           (fun self => inline_pool no_chrome self new_World)
           WebDriverException new_World).
  - reflexivity.
  - intros f. reflexivity.
  - intros self. cbn [as_completed inline_pool]. rewrite map_map.
    cbn [fst]. rewrite map_id. apply Permutation_refl.
  - intros self r o Hin. cbn [as_completed inline_pool] in Hin.
    apply in_map_iff in Hin as [r' [Heq _]]. injection Heq as <- <-.
    now exists new_World.
Defined.

(** ** Names *)

Lemma rstrip_cons (c : ascii) (r : string) :
  rstrip (String c r)
  = match rstrip r with
    | EmptyString => if is_space c then EmptyString else String c EmptyString
    | r' => String c r'
    end.
Proof. reflexivity. Qed.

Lemma rstrip_idempotent (s : string) : rstrip (rstrip s) = rstrip s.
Proof.
  induction s as [|c r IH]; [reflexivity|].
  rewrite rstrip_cons. destruct (rstrip r) as [|c' r'] eqn:Hr.
  - destruct (is_space c) eqn:Hc; [reflexivity|].
    rewrite rstrip_cons. cbn [rstrip]. now rewrite Hc.
  - rewrite rstrip_cons, IH. reflexivity.
Qed.

Lemma lstrip_head (s : string) :
  match lstrip s with
  | EmptyString => True
  | String c _ => is_space c = false
  end.
Proof.
  induction s as [|c r IH]; [exact I|].
  cbn [lstrip]. destruct (is_space c) eqn:Hc; [exact IH|exact Hc].
Qed.

Lemma rstrip_head (c : ascii) (r : string) :
  is_space c = false -> exists r', rstrip (String c r) = String c r'.
Proof.
  intros Hc. cbn [rstrip]. destruct (rstrip r); rewrite ?Hc; eauto.
Qed.

Lemma strip_idempotent (s : string) : strip (strip s) = strip s.
Proof.
  unfold strip. pose proof (lstrip_head s) as Hh.
  destruct (lstrip s) as [|c r]; [reflexivity|].
  destruct (rstrip_head c r Hh) as [r' Hr]. rewrite Hr.
  cbn [lstrip]. rewrite Hh, <- Hr. apply rstrip_idempotent.
Qed.

(** X15: the name of every Product of a page is trimmed: stripping it
    again changes nothing, it neither starts nor ends with a blank. *)
Theorem names_are_trimmed (B : Browser) (self : IntelligentWebCrawler)
    (retailer_key : string) (config : RetailerConfig) (w : World) :
  exists found w',
    _extract_products B self retailer_key config w = (Ok found, w') /\
    Forall (fun p => strip (name p) = name p) found.
Proof.
  apply _extract_products_Forall. intros c p Hp.
  apply extract_element_ok in Hp as [Hn _].
  unfold read_name in Hn.
  destruct (dict_getitem _ _) as [sel|]; [|discriminate].
  cbn [and_then] in Hn.
  destruct (find_element c sel) as [el|]; [|discriminate].
  cbn [and_then] in Hn.
  destruct (text el) as [t|]; [|discriminate].
  cbn [and_then] in Hn. injection Hn as Hn. rewrite <- Hn.
  apply strip_idempotent.
Qed.
